(** * densenetimgcls/utils.py: evaluation and checkpointing utilities

    A shallow embedding of [AverageMeter], [save_checkpoint], [get_transform],
    [load_model] and [evaluate], with the properties their description states.

    The functions are embedded twice.

    The first embedding computes on exact rationals [Q] (compared with [Qeq],
    written [==]) in an environment where no file operation and no call of
    the framework fails.  It carries the properties in which rounding and the
    environment have no part: the counts and the division guard of
    [AverageMeter], the lists and the log of [evaluate], the bounds of the
    error rate, the path names of [save_checkpoint], the pipelines of
    [get_transform].

    The second embedding, module [Py], has Python's numbers: an [int] is a
    [Z], a [float] is an IEEE double (a primitive float), and each operation
    rounds as Python rounds it.  The calls of the framework can raise, and so
    can the opening of a file: [save_checkpoint] and [load_model] run in a
    [world] of files that says which paths can be opened.  It carries the
    properties of the values that are computed and of the files that are
    written.

    Effects.  A Python exception is the [Raise] branch of [result].  In the
    first embedding the output of [save_checkpoint] is a trace of [io_event]s
    that [exec] replays on a finite map from paths to contents; in [Py] a
    statement is a function from the world to the world and a result. *)

From Stdlib Require Import ZArith QArith Lia Lqa String Ascii List.
From Stdlib Require Import DecimalString DecimalN.
From Stdlib Require Import Floats.
From stdpp Require Import gmap strings.
Import ListNotations.

(** ** Exceptions *)

Inductive exn : Type :=
  | ZeroDivisionError
  | ValueError
  | FileNotFoundError
  | UnpicklingError
  | RuntimeError
  | OverflowError
  | TypeError
  | EOFError
  | Exception (name : string).

Inductive result (A : Type) : Type :=
  | Ok (a : A)
  | Raise (e : exn).
Arguments Ok {A} a.
Arguments Raise {A} e.

Definition bind {A B : Type} (r : result A) (k : A -> result B) : result B :=
  match r with
  | Ok a => k a
  | Raise e => Raise e
  end.

Notation "x <- r ;; k" := (bind r (fun x => k))
  (at level 100, r at next level, right associativity).

(** ** Python arithmetic that can raise *)

(** [x / n]: true division by an integer. *)
Definition py_div (x : Q) (n : Z) : result Q :=
  if (n =? 0)%Z then Raise ZeroDivisionError else Ok (x / inject_Z n)%Q.

(** [a % b] on integers: the sign of the result follows the divisor, as
    [Z.modulo] does. *)
Definition py_mod (a b : Z) : result Z :=
  if (b =? 0)%Z then Raise ZeroDivisionError else Ok (a mod b)%Z.

(** ** AverageMeter (utils.py, lines 16-34) *)

Module AverageMeter.

Record t : Type := mk { val : Q; avg : Q; sum : Q; count : Z }.

(** [reset] overwrites the four attributes, whatever they were. *)
Definition reset (self : t) : t :=
  {| val := 0; avg := 0; sum := 0; count := 0 |}.

(** [AverageMeter()]: [__init__] only calls [reset]; the object it receives
    has no attributes yet, and [reset] reads none. *)
Definition init : t :=
  reset {| val := 0; avg := 0; sum := 0; count := 0 |}.

(** [update(val, n)].  The assignments of lines 31-33 take place before the
    division of line 34: the meter that an exception leaves behind has the
    new [val], [sum] and [count] and the old [avg]. *)
Definition update (self : t) (v : Q) (n : Z) : t * result unit :=
  let self1 := {| val := v; avg := avg self; sum := sum self; count := count self |} in
  let self2 := {| val := val self1; avg := avg self1;
                  sum := (sum self1 + v * inject_Z n)%Q; count := count self1 |} in
  let self3 := {| val := val self2; avg := avg self2;
                  sum := sum self2; count := (count self2 + n)%Z |} in
  match py_div (sum self3) (count self3) with
  | Ok a => ({| val := val self3; avg := a; sum := sum self3; count := count self3 |}, Ok tt)
  | Raise e => (self3, Raise e)
  end.

(** A sequence of calls [update(v1,n1); ...; update(vk,nk)] on one meter;
    the first exception ends it. *)
Fixpoint updates (self : t) (calls : list (Q * Z)) : t * result unit :=
  match calls with
  | [] => (self, Ok tt)
  | (v, n) :: rest =>
      match update self v n with
      | (self', Ok _) => updates self' rest
      | (self', Raise e) => (self', Raise e)
      end
  end.

(** The value of a call inside a larger computation: the updated meter, or
    the exception. *)
Definition updated (r : t * result unit) : result t :=
  match r with
  | (self', Ok _) => Ok self'
  | (_, Raise e) => Raise e
  end.

(** *** What the running mean is a mean of *)

Fixpoint weighted_sum (calls : list (Q * Z)) : Q :=
  match calls with
  | [] => 0
  | (v, n) :: rest => (v * inject_Z n + weighted_sum rest)%Q
  end.

Fixpoint total_weight (calls : list (Q * Z)) : Z :=
  match calls with
  | [] => 0
  | (_, n) :: rest => (n + total_weight rest)%Z
  end.

Definition positive_weights (calls : list (Q * Z)) : Prop :=
  Forall (fun c => (1 <= snd c)%Z) calls.

(** A meter as the constructor or [reset] leaves it. *)
Definition fresh (m : t) : Prop := m = init \/ exists m0, m = reset m0.

End AverageMeter.

(** ** String formatting *)

Definition nl : string := String (ascii_of_nat 10) EmptyString.
Definition tab : string := String (ascii_of_nat 9) EmptyString.

(** The number of line ends in a text. *)
Fixpoint newlines (s : string) : nat :=
  match s with
  | EmptyString => 0
  | String c rest => (if Ascii.eqb c (ascii_of_nat 10) then 1 else 0) + newlines rest
  end.

(** [format(z, 'd')]. *)
Definition format_d (z : Z) : string := NilZero.string_of_int (Z.to_int z).

(** Nearest integer to [a / b] for [0 <= a] and [0 < b], ties to even. *)
Definition round_half_even (a b : Z) : Z :=
  let fl := (a / b)%Z in
  match (2 * (a mod b) ?= b)%Z with
  | Lt => fl
  | Gt => (fl + 1)%Z
  | Eq => if Z.even fl then fl else (fl + 1)%Z
  end.

Fixpoint zeros (k : nat) : string :=
  match k with
  | O => EmptyString
  | S k' => String "0"%char (zeros k')
  end.

Definition digits (z : Z) : string := NilZero.string_of_uint (N.to_uint (Z.to_N z)).

(** [format(q, '.<prec>f')]: fixed-point notation with [prec] digits after
    the point, rounded half to even, with the sign of [q] kept when the
    rounded magnitude is zero. *)
Definition format_f (prec : nat) (q : Q) : string :=
  let scale := (10 ^ Z.of_nat prec)%Z in
  let r := round_half_even (Z.abs (Qnum q) * scale) (Z.pos (Qden q)) in
  let frac := digits (r mod scale) in
  (if (Qnum q <? 0)%Z then "-" else "")
  +:+ digits (r / scale)
  +:+ (match prec with
       | O => ""
       | S _ => "." +:+ zeros (prec - String.length frac) +:+ frac
       end).

(** [os.path.join(a, b)] of [posixpath], for two components. *)
Definition ends_with_sep (a : string) : bool :=
  match String.rev a with
  | String c _ => Ascii.eqb c "/"%char
  | EmptyString => false
  end.

Definition os_path_join (a b : string) : string :=
  if String.prefix "/" b then b
  else if orb (String.eqb a "") (ends_with_sep a) then a +:+ b
  else a +:+ "/" +:+ b.

(** ** evaluate (utils.py, lines 100-139) *)

Fixpoint Qsum (l : list Q) : Q :=
  match l with
  | [] => 0
  | x :: rest => (x + Qsum rest)%Q
  end.

(** The framework side.  A tensor whose first dimension is the batch is a
    list of rows.  [model] is the network in eval mode, row by row;
    [sample_loss row t] is the cross-entropy of one row of logits against the
    class index [t]; [top1 row] is the index that [topk(1, dim=1)] picks in a
    row; [time_at k] is what the [k]-th call of [time.time()] reads. *)
Class framework : Type := {
  sample : Type;
  logits : Type;
  model : sample -> logits;
  sample_loss : logits -> Z -> Q;
  top1 : logits -> Z;
  time_at : nat -> Q
}.

Section Evaluate.

Context {F : framework}.

(** One element of the loader: the pair [(input, target)]. *)
Record batch : Type := { input : list sample; target : list Z }.

(** [torch.nn.functional.cross_entropy(output, target)] with its default
    [reduction='mean']: the mean of the per-row losses; the batch sizes of
    its two arguments must agree.  (On an empty batch torch yields nan; the
    value [0] that [Qdiv] gives is never read, line 123 raises first.) *)
Definition cross_entropy (output : list logits) (tgt : list Z) : result Q :=
  if (length output =? length tgt)%nat
  then Ok (Qsum (map (fun '(row, t) => sample_loss row t) (combine output tgt))
           / inject_Z (Z.of_nat (length tgt)))%Q
  else Raise ValueError.

(** [output.topk(1, dim=1)]: shape (B, 1). *)
Definition topk1 (output : list logits) : list (list Z) :=
  map (fun row => [top1 row]) output.

(** [pred.squeeze()] of a tensor of shape (B, 1). *)
Definition squeeze (pred : list (list Z)) : list Z := concat pred.

(** [torch.ne(a, b).float().sum().item()]. *)
Definition ne_sum (a b : list Z) : Z :=
  Z.of_nat (length (List.filter (fun '(x, y) => negb (x =? y)%Z) (combine a b))).

Record eval_state : Type := {
  batch_time : AverageMeter.t;
  losses : AverageMeter.t;
  error : AverageMeter.t;
  end_ : Q;
  target_list : list Z;
  pred_top1_list : list Z;
  clock : nat;
  logged : list string
}.

(** The body of the [for] loop, lines 111-137, for the batch [b] at index
    [batch_idx] of a loader of [len_loader] batches.  [model.eval()],
    [torch.no_grad()] and the moves to CUDA change none of the values. *)
Definition evaluate_batch (print_freq : Z) (is_test : bool) (len_loader : Z)
    (st : eval_state) (batch_idx : Z) (b : batch) : result eval_state :=
  let output := map model (input b) in
  loss <- cross_entropy output (target b) ;;
  let batch_size := Z.of_nat (length (target b)) in
  let pred := topk1 output in
  let target_list' := target_list st ++ target b in
  let pred_top1_list' := pred_top1_list st ++ map (fun i => nth 0 i 0%Z) pred in
  err <- py_div (inject_Z (ne_sum (squeeze pred) (target b))) batch_size ;;
  error' <- AverageMeter.updated (AverageMeter.update (error st) err batch_size) ;;
  l <- py_div loss batch_size ;;
  losses' <- AverageMeter.updated (AverageMeter.update (losses st) l batch_size) ;;
  batch_time' <- AverageMeter.updated
                   (AverageMeter.update (batch_time st) (time_at (clock st) - end_ st)%Q 1) ;;
  let end' := time_at (S (clock st)) in
  r <- py_mod batch_idx print_freq ;;
  let logged' :=
    if (r =? 0)%Z then
      logged st ++ [String.concat tab [
        if is_test then "Test" else "Valid";
        "Iter: [" +:+ format_d (batch_idx + 1) +:+ "/" +:+ format_d len_loader +:+ "]";
        "Avg_Time_Batch/Avg_Time_Epoch: "
          +:+ format_f 3 (AverageMeter.val batch_time') +:+ "/"
          +:+ format_f 3 (AverageMeter.avg batch_time');
        "Avg_Loss_Batch/Avg_Loss_Epoch: "
          +:+ format_f 4 (AverageMeter.val losses') +:+ "/"
          +:+ format_f 4 (AverageMeter.avg losses');
        "Avg_Error_Batch/Avg_Error_Epoch: "
          +:+ format_f 4 (AverageMeter.val error') +:+ "/"
          +:+ format_f 4 (AverageMeter.avg error')]]
    else logged st in
  Ok {| batch_time := batch_time'; losses := losses'; error := error';
        end_ := end'; target_list := target_list'; pred_top1_list := pred_top1_list';
        clock := S (S (clock st)); logged := logged' |}.

Fixpoint evaluate_loop (print_freq : Z) (is_test : bool) (len_loader : Z)
    (st : eval_state) (batch_idx : Z) (batches : list batch) : result eval_state :=
  match batches with
  | [] => Ok st
  | b :: rest =>
      st' <- evaluate_batch print_freq is_test len_loader st batch_idx b ;;
      evaluate_loop print_freq is_test len_loader st' (batch_idx + 1) rest
  end.

(** The state before the loop, lines 101-108. *)
Definition evaluate_start : eval_state :=
  {| batch_time := AverageMeter.init; losses := AverageMeter.init;
     error := AverageMeter.init; end_ := time_at 0;
     target_list := []; pred_top1_list := []; clock := 1; logged := [] |}.

Definition evaluate_run (loader : list batch) (print_freq : Z) (is_test : bool)
    : result eval_state :=
  evaluate_loop print_freq is_test (Z.of_nat (length loader)) evaluate_start 0 loader.

(** [evaluate(model, loader, print_freq, is_test)] and its four results. *)
Definition evaluate (loader : list batch) (print_freq : Z) (is_test : bool)
    : result (Q * Q * Q * (list Z * list Z)) :=
  st <- evaluate_run loader print_freq is_test ;;
  Ok (AverageMeter.avg (batch_time st), AverageMeter.avg (losses st),
      AverageMeter.avg (error st), (target_list st, pred_top1_list st)).

(** *** What the results are compared with *)

(** The samples of a loader in iteration order, each with its target. *)
Definition samples_of (b : batch) : list (sample * Z) := combine (input b) (target b).
Definition samples (loader : list batch) : list (sample * Z) :=
  concat (map samples_of loader).

Definition prediction (x : sample) : Z := top1 (model x).
Definition misclassified (s : sample * Z) : bool := negb (prediction (fst s) =? snd s)%Z.
Definition loss_of (s : sample * Z) : Q := sample_loss (model (fst s)) (snd s).

Definition n_samples (l : list (sample * Z)) : Z := Z.of_nat (length l).
Definition n_wrong (l : list (sample * Z)) : Z := Z.of_nat (length (List.filter misclassified l)).
Definition total_loss (l : list (sample * Z)) : Q := Qsum (map loss_of l).

(** The error rate and the mean loss of one batch. *)
Definition batch_error (b : batch) : Q :=
  (inject_Z (n_wrong (samples_of b)) / inject_Z (n_samples (samples_of b)))%Q.
Definition batch_mean_loss (b : batch) : Q :=
  (total_loss (samples_of b) / inject_Z (n_samples (samples_of b)))%Q.

(** The calls [error.update(...)] and [losses.update(...)] that a batch
    gives rise to, as (value, weight). *)
Definition batch_size_of (b : batch) : Z := Z.of_nat (length (target b)).
Definition error_call (b : batch) : Q * Z := (batch_error b, batch_size_of b).
Definition losses_call (b : batch) : Q * Z :=
  ((batch_mean_loss b / inject_Z (batch_size_of b))%Q, batch_size_of b).

(** A batch as a data loader yields it: as many targets as inputs. *)
Definition well_formed (b : batch) : bool := (length (input b) =? length (target b))%nat.
Definition non_empty (b : batch) : bool := (0 <? length (target b))%nat.
Definition good_batch (b : batch) : bool := well_formed b && non_empty b.

End Evaluate.

(** *** A framework to run the loop on

    A row is reduced to what the loop reads off it: the class the network
    ranks first and the cross-entropy of the row against its target.  The
    clock advances by one second per reading. *)
Definition table_framework : framework :=
  {| sample := Z * Q;
     logits := Z * Q;
     model := fun x => x;
     sample_loss := fun row _ => snd row;
     top1 := fun row => fst row;
     time_at := fun k => inject_Z (Z.of_nat k) |}.

(** One batch of two samples, both classified correctly, with losses 1/2
    and 3/2. *)
Definition one_batch_loader : list (@batch table_framework) :=
  [ @Build_batch table_framework [(0%Z, 1 # 2); (1%Z, 3 # 2)] [0%Z; 1%Z] ].

(** Two batches, of two samples and of one; the second sample of the first
    batch is misclassified. *)
Definition two_batch_loader : list (@batch table_framework) :=
  [ @Build_batch table_framework [(0%Z, 1 # 4); (2%Z, 2 # 1)] [0%Z; 1%Z];
    @Build_batch table_framework [(1%Z, 1 # 2)] [1%Z] ].

(** ** save_checkpoint and load_model (utils.py, lines 37-63 and 90-97) *)

Inductive device : Type := Cpu | Cuda.

(** What [torch.cuda] reports. *)
Record cuda_env : Type := { is_available : bool; device_count : Z }.

Section Checkpoint.

(** [weights] is the type of a state dict; [pickle] is the byte string that
    [torch.save] writes for it and [unpickle] what [torch.load] reads back. *)
Variable weights : Type.
Variable pickle : weights -> string.
Variable unpickle : string -> option weights.

(** The dict [state], by its keys. *)
Record checkpoint : Type := {
  epoch : Z;
  train_loss : Q;
  train_error : Q;
  valid_loss : Q;
  valid_error : Q;
  state_dict : weights;
  best_accuracy : Q;
  counter : Z
}.

(** Output, in the order the program produces it. *)
Inductive io_event : Type :=
  | FileAppend (path text : string)
  | TorchSave (path : string) (obj : weights)
  | LoggerInfo (message : string).

(** The file system: contents by path.  Opening with mode ['a'] creates a
    missing file; [torch.save] replaces the contents. *)
Definition apply_event (fs : gmap string string) (ev : io_event) : gmap string string :=
  match ev with
  | FileAppend path text => <[path := default "" (fs !! path) +:+ text]> fs
  | TorchSave path obj => <[path := pickle obj]> fs
  | LoggerInfo _ => fs
  end.

Definition exec (fs : gmap string string) (trace : list io_event) : gmap string string :=
  fold_left apply_event trace fs.

Definition metrics_line (state : checkpoint) : string :=
  String.concat "," [
    "Epoch " +:+ format_d (epoch state);
    "train_loss " +:+ format_f 6 (train_loss state);
    "train_error " +:+ format_f 6 (train_error state);
    "valid_loss " +:+ format_f 5 (valid_loss state);
    "valid_error " +:+ format_f 5 (valid_error state) +:+ nl].

Definition best_message (state : checkpoint) (best_checkpoint_path : string) : string :=
  "Get better top1 accuracy: " +:+ format_f 4 (best_accuracy state)
  +:+ " saving weights to " +:+ best_checkpoint_path +:+ nl.

(** [save_checkpoint(state, is_best, save_path, patience)]: the output it
    produces and the value it returns. *)
Definition save_checkpoint (state : checkpoint) (is_best : bool) (save_path : string)
    (patience : Z) : list io_event * bool :=
  let log_path := os_path_join save_path "log.txt" in
  let out1 := [FileAppend log_path (metrics_line state)] in
  let out2 :=
    if is_best then
      let best_checkpoint_path := os_path_join save_path "best_model.pth" in
      let message := best_message state best_checkpoint_path in
      [TorchSave best_checkpoint_path (state_dict state);
       LoggerInfo message;
       FileAppend (os_path_join save_path "log.txt") message]
    else [] in
  let early_stop := if (counter state >=? patience)%Z then true else false in
  let out3 :=
    if early_stop then
      [LoggerInfo "early stopped.";
       FileAppend (os_path_join save_path "log.txt") ("early stopped." +:+ nl)]
    else [] in
  (out1 ++ out2 ++ out3, early_stop).

(** The call on a file system. *)
Definition save_checkpoint_on (fs : gmap string string) (state : checkpoint)
    (is_best : bool) (save_path : string) (patience : Z) : gmap string string * bool :=
  let '(out, early_stop) := save_checkpoint state is_best save_path patience in
  (exec fs out, early_stop).

(** The classifier class of densenet.py, which load_model constructs, by its
    constructor as load_model calls it ([model_type], [pretrained],
    [memory_efficient], [classes]) and its [load_state_dict], which raises
    when the state dict does not fit the network. *)
Variable net : Type.
Variable arch : Type.
Variable MyDenseNet : arch -> bool -> bool -> Z -> net.
Variable load_state_dict : net -> weights -> result net.

(** A module and where torch holds it. *)
Record placed : Type := { network : net; on_device : device; data_parallel : bool }.

Definition cuda (m : placed) : placed :=
  {| network := network m; on_device := Cuda; data_parallel := data_parallel m |}.

Definition DataParallel (m : placed) : placed :=
  {| network := network m; on_device := on_device m; data_parallel := true |}.

(** [torch.load(path, map_location='cpu')]. *)
Definition torch_load (fs : gmap string string) (path : string) : result weights :=
  match fs !! path with
  | None => Raise FileNotFoundError
  | Some bytes =>
      match unpickle bytes with
      | Some w => Ok w
      | None => Raise UnpicklingError
      end
  end.

Definition load_model (fs : gmap string string) (env : cuda_env)
    (model_path : string) (model_type : arch) (memory_efficient : bool)
    (num_classes : Z) : result placed :=
  let model := MyDenseNet model_type false memory_efficient num_classes in
  w <- torch_load fs (os_path_join model_path "best_model.pth") ;;
  model <- load_state_dict model w ;;
  let model := {| network := model; on_device := Cpu; data_parallel := false |} in
  if is_available env then
    let model := cuda model in
    if (device_count env >? 1)%Z then Ok (cuda (DataParallel model))
    else Ok model
  else Ok model.

End Checkpoint.

Arguments FileAppend {weights} path text.
Arguments TorchSave {weights} path obj.
Arguments LoggerInfo {weights} message.
Arguments epoch {weights} c.
Arguments train_loss {weights} c.
Arguments train_error {weights} c.
Arguments valid_loss {weights} c.
Arguments valid_error {weights} c.
Arguments state_dict {weights} c.
Arguments best_accuracy {weights} c.
Arguments counter {weights} c.
Arguments apply_event {weights} pickle fs ev.
Arguments exec {weights} pickle fs trace.
Arguments metrics_line {weights} state.
Arguments best_message {weights} state best_checkpoint_path.
Arguments save_checkpoint {weights} state is_best save_path patience.
Arguments save_checkpoint_on {weights} pickle fs state is_best save_path patience.
Arguments network {net} p.
Arguments on_device {net} p.
Arguments data_parallel {net} p.
Arguments cuda {net} m.
Arguments DataParallel {net} m.
Arguments torch_load {weights} unpickle fs path.
Arguments load_model {weights} unpickle {net arch} MyDenseNet load_state_dict
  fs env model_path model_type memory_efficient num_classes.

(** *** A checkpoint to run save_checkpoint on

    A state dict is a string that is its own pickle. *)
Definition text_pickle (w : string) : string := w.

Definition epoch_7 : checkpoint string :=
  {| epoch := 7; train_loss := 1 # 2; train_error := 1 # 8;
     valid_loss := 2 # 3; valid_error := 1 # 4;
     state_dict := "weights-7"; best_accuracy := 3 # 4; counter := 3 |}.

(** ** get_transform (utils.py, lines 66-87) *)

Inductive transform : Type :=
  | Resize (size : Z)
  | CenterCrop (size : Z)
  | RandomHorizontalFlip (p : Q)
  | ToTensor
  | Normalize (mean std : list Q).

(** [transforms.Compose]: the transforms in the order they are applied. *)
Definition Compose (ts : list transform) : list transform := ts.

Definition get_transform : list transform * list transform :=
  let mean := [0.485; 0.456; 0.406]%Q in
  let stdv := [0.229; 0.224; 0.225]%Q in
  let train_transforms := Compose [
    Resize 256;
    CenterCrop 224;
    RandomHorizontalFlip 0.5;
    ToTensor;
    Normalize mean stdv] in
  let test_transforms := Compose [
    Resize 256;
    CenterCrop 224;
    ToTensor;
    Normalize mean stdv] in
  (train_transforms, test_transforms).

(** The transforms of torchvision that draw a random number. *)
Definition is_random (t : transform) : bool :=
  match t with
  | RandomHorizontalFlip _ => true
  | _ => false
  end.

(** ** What a formatted number says *)

(** The number that a string of decimal digits writes. *)
Definition digit_value (c : ascii) : option N :=
  let n := N_of_ascii c in
  if ((48 <=? n) && (n <=? 57))%N then Some (n - 48)%N else None.

Fixpoint decimal_from (acc : N) (s : string) : option N :=
  match s with
  | EmptyString => Some acc
  | String c rest =>
      match digit_value c with
      | Some d => decimal_from (10 * acc + d) rest
      | None => None
      end
  end.

Definition decimal (s : string) : option N :=
  match s with
  | EmptyString => None
  | _ => decimal_from 0 s
  end.

(** [r] is the integer nearest to [a / b], the even one of the two when
    [a / b] is half way between them. *)
Definition nearest_even (a b r : Z) : Prop :=
  (Z.abs (2 * (r * b - a)) <= b)%Z
  /\ (Z.abs (2 * (r * b - a)) = b -> Z.even r = true).

(** A numeral has no zero in front, unless it is the single digit 0. *)
Definition canonical (s : string) : Prop :=
  match s with
  | String c (String _ _) => c <> "0"%char
  | _ => True
  end.

(** [s] writes [q] in fixed-point notation with [prec] digits after the
    point: a minus sign when [q] is negative, then the integer digits, the
    point and [prec] digits of the multiple of [10^-prec] nearest to the
    magnitude of [q] (the even one at a tie). *)
Definition fixed_point (prec : nat) (q : Q) (s : string) : Prop :=
  exists (ip fp : string) (i f : N),
    s = (if (Qnum q <? 0)%Z then "-" else "") +:+ ip +:+ "." +:+ fp
    /\ decimal ip = Some i /\ canonical ip
    /\ decimal fp = Some f /\ String.length fp = prec
    /\ nearest_even (Z.abs (Qnum q) * 10 ^ Z.of_nat prec) (Z.pos (Qden q))
                    (Z.of_N i * 10 ^ Z.of_nat prec + Z.of_N f).

(** [s] writes the integer [z] in decimal. *)
Definition decimal_int (z : Z) (s : string) : Prop :=
  exists ds, s = (if (z <? 0)%Z then "-" else "") +:+ ds
             /\ decimal ds = Some (Z.to_N (Z.abs z)) /\ canonical ds.

(** * The same code on Python's numbers and a fallible environment

    The definitions above compute in exact arithmetic and in an environment
    where no file operation and no call of the framework fails.  Module [Py]
    embeds the same source lines once more, with Python's numbers (unbounded
    ints and IEEE doubles, each operation rounded as Python rounds it) and
    with the exceptions that the environment can raise. *)

Module Py.

(** ** Numbers *)

Inductive num : Type :=
  | Int (z : Z)
  | Float (f : float).

(** The double nearest to an integer, ties to even, infinite past the
    largest double. *)
Definition nearest_double (z : Z) : float :=
  SF2Prim (binary_normalize prec emax z 0 false).

(** The least integer magnitude that [float()] refuses: half way between the
    largest double and 2^1024. *)
Definition overflow_bound : Z := 2 ^ 1024 - 2 ^ 970.

(** [float(z)]. *)
Definition float_of_int (z : Z) : result float :=
  if (Z.abs z <? overflow_bound)%Z then Ok (nearest_double z)
  else Raise OverflowError.

Definition to_float (x : num) : result float :=
  match x with
  | Float f => Ok f
  | Int z => float_of_int z
  end.

(** [x + y], [x - y], [x * y]: exact on two ints; otherwise both operands
    become doubles and the operation is the IEEE one. *)
Definition add (x y : num) : result num :=
  match x, y with
  | Int a, Int b => Ok (Int (a + b))
  | _, _ => a <- to_float x ;; b <- to_float y ;; Ok (Float (a + b)%float)
  end.

Definition sub (x y : num) : result num :=
  match x, y with
  | Int a, Int b => Ok (Int (a - b))
  | _, _ => a <- to_float x ;; b <- to_float y ;; Ok (Float (a - b)%float)
  end.

Definition mul (x y : num) : result num :=
  match x, y with
  | Int a, Int b => Ok (Int (a * b))
  | _, _ => a <- to_float x ;; b <- to_float y ;; Ok (Float (a * b)%float)
  end.

(** [a / b] on two ints, [b] not zero: the double nearest to the quotient. *)
Definition int_truediv (a b : Z) : result float :=
  match a with
  | Z0 => Ok (if (b <? 0)%Z then (-0)%float else 0%float)
  | _ =>
      match SFdiv prec emax (S754_finite (a <? 0)%Z (Z.to_pos (Z.abs a)) 0)
                            (S754_finite (b <? 0)%Z (Z.to_pos (Z.abs b)) 0) with
      | S754_infinity _ => Raise OverflowError
      | q => Ok (SF2Prim q)
      end
  end.

(** [x / y].  With an int divisor the test for zero is made on the int: an
    int converts to the double zero exactly when it is zero. *)
Definition truediv (x y : num) : result num :=
  match x, y with
  | Int a, Int b =>
      if (b =? 0)%Z then Raise ZeroDivisionError
      else q <- int_truediv a b ;; Ok (Float q)
  | Float a, Int b =>
      if (b =? 0)%Z then Raise ZeroDivisionError
      else fb <- float_of_int b ;; Ok (Float (a / fb)%float)
  | _, Float b =>
      a <- to_float x ;;
      if PrimFloat.eqb b 0%float then Raise ZeroDivisionError
      else Ok (Float (a / b)%float)
  end.

(** The rational that a number is, for a number that is one. *)
Definition exact_double (f : float) : option Q :=
  match Prim2SF f with
  | S754_zero _ => Some 0%Q
  | S754_finite s m e =>
      Some (inject_Z (if s then Z.neg m else Z.pos m) * Qpower 2 e)%Q
  | _ => None
  end.

Definition exact (x : num) : option Q :=
  match x with
  | Int z => Some (inject_Z z)
  | Float f => exact_double f
  end.

(** ** AverageMeter (utils.py, lines 16-34) *)

Module AverageMeter.

Record t : Type := mk { val : num; avg : num; sum : num; count : Z }.

Definition reset (self : t) : t :=
  {| val := Int 0; avg := Int 0; sum := Int 0; count := 0 |}.

Definition init : t :=
  reset {| val := Int 0; avg := Int 0; sum := Int 0; count := 0 |}.

(** [update(val, n)], statement by statement: an exception leaves the
    attributes assigned before it. *)
Definition update (self : t) (v : num) (n : Z) : t * result unit :=
  let self1 := {| val := v; avg := avg self; sum := sum self; count := count self |} in
  match (p <- mul (val self1) (Int n) ;; add (sum self1) p) with
  | Raise e => (self1, Raise e)
  | Ok s =>
      let self2 := {| val := val self1; avg := avg self1; sum := s; count := count self1 |} in
      let self3 := {| val := val self2; avg := avg self2; sum := sum self2;
                      count := (count self2 + n)%Z |} in
      match truediv (sum self3) (Int (count self3)) with
      | Raise e => (self3, Raise e)
      | Ok a =>
          ({| val := val self3; avg := a; sum := sum self3; count := count self3 |}, Ok tt)
      end
  end.

Fixpoint updates (self : t) (calls : list (num * Z)) : t * result unit :=
  match calls with
  | [] => (self, Ok tt)
  | (v, n) :: rest =>
      match update self v n with
      | (self', Ok _) => updates self' rest
      | (self', Raise e) => (self', Raise e)
      end
  end.

Definition updated (r : t * result unit) : result t :=
  match r with
  | (self', Ok _) => Ok self'
  | (_, Raise e) => Raise e
  end.

(** *** What the attributes are compared with *)

(** The products [v * n] added up from [acc] in the order of the calls, in
    Python's arithmetic. *)
Fixpoint accumulated (acc : num) (calls : list (num * Z)) : result num :=
  match calls with
  | [] => Ok acc
  | (v, n) :: rest =>
      p <- mul v (Int n) ;; s <- add acc p ;; accumulated s rest
  end.


Fixpoint total_weight (calls : list (num * Z)) : Z :=
  match calls with
  | [] => 0
  | (_, n) :: rest => (n + total_weight rest)%Z
  end.

Definition positive_weights (calls : list (num * Z)) : Prop :=
  Forall (fun c => (1 <= snd c)%Z) calls.



Definition fresh (m : t) : Prop := m = init \/ exists m0, m = reset m0.

End AverageMeter.

(** ** Formatting a number *)

(** [format(f, '.<prec>f')] for a double. *)
Definition format_double (prec : nat) (f : float) : string :=
  match Prim2SF f with
  | S754_nan => "nan"
  | S754_infinity s => if s then "-inf" else "inf"
  | S754_zero s => (if s then "-" else "") +:+ format_f prec 0
  | S754_finite s m e =>
      format_f prec (inject_Z (if s then Z.neg m else Z.pos m) * Qpower 2 e)
  end.

(** [format(x, '.<prec>f')]: an int is made a double first. *)
Definition format_num (prec : nat) (x : num) : result string :=
  f <- to_float x ;; Ok (format_double prec f).

(** ** evaluate (utils.py, lines 100-139) *)

(** The framework side.  [model] is the forward pass on the rows of a batch,
    [loss_item output target] is what [.item()] reads off the tensor that
    [cross_entropy] returns for rows and targets in equal numbers, and
    [top1 row] is the index that [topk(1, dim=1)] picks in a row.  Each of
    them can raise. *)
Class framework : Type := {
  sample : Type;
  logits : Type;
  model : list sample -> result (list logits);
  loss_item : list logits -> list Z -> result float;
  top1 : logits -> result Z
}.

Fixpoint map_result {A B : Type} (f : A -> result B) (l : list A) : result (list B) :=
  match l with
  | [] => Ok []
  | x :: rest => y <- f x ;; ys <- map_result f rest ;; Ok (y :: ys)
  end.

Section Evaluate.

Context {F : framework}.

Record batch : Type := { input : list sample; target : list Z }.

(** What is iterated over: its batches, and what [len()] says of it. *)
Record loader : Type := { batches : list batch; len : result Z }.

Definition cross_entropy (output : list logits) (tgt : list Z) : result float :=
  if (length output =? length tgt)%nat then loss_item output tgt
  else Raise ValueError.

Definition topk1 (output : list logits) : result (list (list Z)) :=
  map_result (fun row => i <- top1 row ;; Ok [i]) output.

(** [torch.ne(a, b).float().sum().item()]: the number of positions at which
    the two differ, as a double (the tensor is of 32-bit floats, in which
    every count up to 2^24 is exact). *)
Definition ne_sum_item (a b : list Z) : float := nearest_double (ne_sum a b).

Record eval_state : Type := {
  batch_time : AverageMeter.t;
  losses : AverageMeter.t;
  error : AverageMeter.t;
  end_ : float;
  target_list : list Z;
  pred_top1_list : list Z;
  clock : nat;
  logged : list string
}.

(** The body of the loop, lines 111-137.  [times k] is what the [k]-th call
    of [time.time()] of this run reads. *)
Definition evaluate_batch (times : nat -> float) (print_freq : Z) (is_test : bool)
    (len_loader : result Z) (st : eval_state) (batch_idx : Z) (b : batch)
    : result eval_state :=
  output <- model (input b) ;;
  loss <- cross_entropy output (target b) ;;
  let batch_size := Z.of_nat (length (target b)) in
  pred <- topk1 output ;;
  let target_list' := target_list st ++ target b in
  let pred_top1_list' := pred_top1_list st ++ map (fun i => nth 0 i 0%Z) pred in
  err <- truediv (Float (ne_sum_item (squeeze pred) (target b))) (Int batch_size) ;;
  error' <- AverageMeter.updated (AverageMeter.update (error st) err batch_size) ;;
  l <- truediv (Float loss) (Int batch_size) ;;
  losses' <- AverageMeter.updated (AverageMeter.update (losses st) l batch_size) ;;
  d <- sub (Float (times (clock st))) (Float (end_ st)) ;;
  batch_time' <- AverageMeter.updated (AverageMeter.update (batch_time st) d 1) ;;
  let end' := times (S (clock st)) in
  r <- py_mod batch_idx print_freq ;;
  logged' <-
    (if (r =? 0)%Z then
       n <- len_loader ;;
       tv <- format_num 3 (AverageMeter.val batch_time') ;;
       ta <- format_num 3 (AverageMeter.avg batch_time') ;;
       lv <- format_num 4 (AverageMeter.val losses') ;;
       la <- format_num 4 (AverageMeter.avg losses') ;;
       ev <- format_num 4 (AverageMeter.val error') ;;
       ea <- format_num 4 (AverageMeter.avg error') ;;
       Ok (logged st ++ [String.concat tab [
         if is_test then "Test" else "Valid";
         "Iter: [" +:+ format_d (batch_idx + 1) +:+ "/" +:+ format_d n +:+ "]";
         "Avg_Time_Batch/Avg_Time_Epoch: " +:+ tv +:+ "/" +:+ ta;
         "Avg_Loss_Batch/Avg_Loss_Epoch: " +:+ lv +:+ "/" +:+ la;
         "Avg_Error_Batch/Avg_Error_Epoch: " +:+ ev +:+ "/" +:+ ea]])
     else Ok (logged st)) ;;
  Ok {| batch_time := batch_time'; losses := losses'; error := error';
        end_ := end'; target_list := target_list'; pred_top1_list := pred_top1_list';
        clock := S (S (clock st)); logged := logged' |}.

Fixpoint evaluate_loop (times : nat -> float) (print_freq : Z) (is_test : bool)
    (len_loader : result Z) (st : eval_state) (batch_idx : Z) (bs : list batch)
    : result eval_state :=
  match bs with
  | [] => Ok st
  | b :: rest =>
      st' <- evaluate_batch times print_freq is_test len_loader st batch_idx b ;;
      evaluate_loop times print_freq is_test len_loader st' (batch_idx + 1) rest
  end.

Definition evaluate_start (times : nat -> float) : eval_state :=
  {| batch_time := AverageMeter.init; losses := AverageMeter.init;
     error := AverageMeter.init; end_ := times 0%nat;
     target_list := []; pred_top1_list := []; clock := 1; logged := [] |}.

Definition evaluate_run (times : nat -> float) (l : loader) (print_freq : Z)
    (is_test : bool) : result eval_state :=
  evaluate_loop times print_freq is_test (len l) (evaluate_start times) 0 (batches l).

(** [evaluate(model, loader, print_freq, is_test)] in a run whose clock
    reads [times]. *)
Definition evaluate (times : nat -> float) (l : loader) (print_freq : Z)
    (is_test : bool) : result (num * num * num * (list Z * list Z)) :=
  st <- evaluate_run times l print_freq is_test ;;
  Ok (AverageMeter.avg (batch_time st), AverageMeter.avg (losses st),
      AverageMeter.avg (error st), (target_list st, pred_top1_list st)).

(** *** What the third result is compared with *)

(** The classes that the network ranks first on the rows of a batch. *)
Definition predictions (b : batch) : result (list Z) :=
  output <- model (input b) ;; map_result top1 output.

(** The error rate of a batch as line 123 computes it: the double nearest to
    the number of rows whose prediction differs from the target, divided by
    the batch size. *)
Definition batch_error (b : batch) : result num :=
  preds <- predictions b ;;
  truediv (Float (nearest_double (ne_sum preds (target b))))
          (Int (Z.of_nat (length (target b)))).

(** The average of values with integer weights, as Python computes
    [(v1*n1 + ... + vk*nk) / (n1 + ... + nk)] from left to right. *)
Definition weighted_average (calls : list (num * Z)) : result num :=
  s <- AverageMeter.accumulated (Int 0) calls ;;
  truediv s (Int (AverageMeter.total_weight calls)).

Definition batch_sizes (bs : list batch) : list Z :=
  map (fun b => Z.of_nat (length (target b))) bs.

End Evaluate.

(** *** A framework to run the loop on: a row holds the class that the
    network ranks first; every batch has loss 1. *)
Definition table_framework : framework :=
  {| sample := Z;
     logits := Z;
     model := fun rows => Ok rows;
     loss_item := fun _ _ => Ok 1%float;
     top1 := fun row => Ok row |}.

(** A clock that advances by one second per reading. *)
Definition seconds (k : nat) : float := nearest_double (Z.of_nat k).

(** One sample classified correctly, then a batch of 29 of which 15 are
    misclassified. *)
Definition rounding_loader : @loader table_framework :=
  {| batches :=
       [ @Build_batch table_framework [0%Z] [0%Z];
         @Build_batch table_framework (repeat 1%Z 29) (repeat 0%Z 15 ++ repeat 1%Z 14) ];
     len := Ok 2%Z |}.

(** ** save_checkpoint (utils.py, lines 37-63) *)

(** The classifier and torch, as far as save_checkpoint and load_model use
    them.  [pickle] is the byte string that [torch.save] writes for a state
    dict, [unpickle map_location bytes] what [torch.load] makes of a file's
    bytes; the constructor of the classifier class of densenet.py,
    [load_state_dict], [.cuda()] and [torch.nn.DataParallel] return the
    module or raise.  [device_of] is the device that holds the parameters of
    a module, [wrapped] whether it is a [DataParallel]. *)
Class torch : Type := {
  weights : Type;
  net : Type;
  arch : Type;
  pickle : weights -> string;
  unpickle : device -> string -> result weights;
  MyDenseNet : arch -> bool -> bool -> Z -> result net;
  load_state_dict : net -> weights -> result net;
  cuda : net -> result net;
  DataParallel : net -> result net;
  device_of : net -> device;
  wrapped : net -> bool
}.

Section Checkpoint.

Context {T : torch}.

(** The dict [state], by its keys. *)
Record checkpoint : Type := {
  epoch : num;
  train_loss : num;
  train_error : num;
  valid_loss : num;
  valid_error : num;
  state_dict : weights;
  best_accuracy : num;
  counter : Z
}.

(** What the program did to the world, in order. *)
Inductive io_event : Type :=
  | FileAppend (path text : string)
  | TorchSave (path : string) (obj : weights)
  | LoggerInfo (message : string).

(** The world outside the program: the contents of the files by path, the
    exception that opening a path for writing raises, if any
    ([FileNotFoundError] when its directory does not exist, an [OSError] of
    another kind when the path may not be written), the same for reading, and
    what the program has done so far. *)
Record world : Type := {
  files : gmap string string;
  open_error : string -> option exn;
  read_error : string -> option exn;
  events : list io_event
}.

(** A statement runs in a world, changes it, and returns or raises. *)
Definition io (A : Type) : Type := world -> world * result A.

Definition io_ret {A : Type} (a : A) : io A := fun w => (w, Ok a).

Definition io_bind {A B : Type} (m : io A) (k : A -> io B) : io B :=
  fun w =>
    match m w with
    | (w1, Ok a) => k a w1
    | (w1, Raise e) => (w1, Raise e)
    end.

Notation "x <~ m ;; k" := (io_bind m (fun x => k))
  (at level 100, m at next level, right associativity).

Definition lift {A : Type} (r : result A) : io A := fun w => (w, r).

(** [open(path, 'a')]: creates the file when there is none. *)
Definition open_append (path : string) : io unit :=
  fun w =>
    match open_error w path with
    | Some e => (w, Raise e)
    | None =>
        ({| files := <[path := default "" (files w !! path)]> (files w);
            open_error := open_error w;
            read_error := read_error w;
            events := events w |}, Ok tt)
    end.

(** [fout.write(text)] on a file opened with mode ['a'], and its closing at
    the end of the [with] statement. *)
Definition write (path text : string) : io unit :=
  fun w =>
    ({| files := <[path := default "" (files w !! path) +:+ text]> (files w);
        open_error := open_error w;
        read_error := read_error w;
        events := events w ++ [FileAppend path text] |}, Ok tt).

(** [torch.save(obj, path)]: replaces the contents of the file. *)
Definition torch_save (obj : weights) (path : string) : io unit :=
  fun w =>
    match open_error w path with
    | Some e => (w, Raise e)
    | None =>
        ({| files := <[path := pickle obj]> (files w);
            open_error := open_error w;
            read_error := read_error w;
            events := events w ++ [TorchSave path obj] |}, Ok tt)
    end.

(** [logger.info(message)]. *)
Definition logger_info (message : string) : io unit :=
  fun w =>
    ({| files := files w;
        open_error := open_error w;
        read_error := read_error w;
        events := events w ++ [LoggerInfo message] |}, Ok tt).

(** [format(x, 'd')]: for ints only. *)
Definition format_int (x : num) : result string :=
  match x with
  | Int z => Ok (format_d z)
  | Float _ => Raise ValueError
  end.

(** The argument of [fout.write] at lines 43-49; the f-strings are
    evaluated in the order of the list. *)
Definition metrics_line (state : checkpoint) : result string :=
  e <- format_int (epoch state) ;;
  tl <- format_num 6 (train_loss state) ;;
  te <- format_num 6 (train_error state) ;;
  vl <- format_num 5 (valid_loss state) ;;
  ve <- format_num 5 (valid_error state) ;;
  Ok (String.concat "," [
        "Epoch " +:+ e;
        "train_loss " +:+ tl;
        "train_error " +:+ te;
        "valid_loss " +:+ vl;
        "valid_error " +:+ ve +:+ nl]).

Definition best_message (state : checkpoint) (best_checkpoint_path : string) :
    result string :=
  a <- format_num 4 (best_accuracy state) ;;
  Ok ("Get better top1 accuracy: " +:+ a
      +:+ " saving weights to " +:+ best_checkpoint_path +:+ nl).

(** [save_checkpoint(state, is_best, save_path, patience)].  The file is
    opened at line 42 before the line is formatted. *)
Definition save_checkpoint (state : checkpoint) (is_best : bool) (save_path : string)
    (patience : Z) : io bool :=
  let log_path := os_path_join save_path "log.txt" in
  _ <~ open_append log_path ;;
  line <~ lift (metrics_line state) ;;
  _ <~ write log_path line ;;
  _ <~ (if is_best then
          let best_checkpoint_path := os_path_join save_path "best_model.pth" in
          _ <~ torch_save (state_dict state) best_checkpoint_path ;;
          message <~ lift (best_message state best_checkpoint_path) ;;
          _ <~ logger_info message ;;
          _ <~ open_append (os_path_join save_path "log.txt") ;;
          write (os_path_join save_path "log.txt") message
        else io_ret tt) ;;
  let early_stop := if (counter state >=? patience)%Z then true else false in
  _ <~ (if early_stop then
          _ <~ logger_info "early stopped." ;;
          _ <~ open_append (os_path_join save_path "log.txt") ;;
          write (os_path_join save_path "log.txt") ("early stopped." +:+ nl)
        else io_ret tt) ;;
  io_ret early_stop.

(** ** load_model (utils.py, lines 90-97) *)

(** [torch.load(path, map_location=...)]. *)
Definition torch_load (w : world) (path : string) (map_location : device) :
    result weights :=
  match read_error w path with
  | Some e => Raise e
  | None =>
      match files w !! path with
      | None => Raise FileNotFoundError
      | Some bytes => unpickle map_location bytes
      end
  end.

Definition load_model (w : world) (env : cuda_env) (model_path : string)
    (model_type : arch) (memory_efficient : bool) (num_classes : Z) : result net :=
  model <- MyDenseNet model_type false memory_efficient num_classes ;;
  state <- torch_load w (os_path_join model_path "best_model.pth") Cpu ;;
  model <- load_state_dict model state ;;
  if is_available env then
    model <- cuda model ;;
    if (device_count env >? 1)%Z then
      model <- DataParallel model ;;
      cuda model
    else Ok model
  else Ok model.

(** *** What the written numbers are compared with *)

(** What [format(f, '.<prec>f')] is to write for a double: the names of the
    values that are no numbers, and the digits of a number in fixed-point
    notation, a zero with its sign. *)
Definition written_double (prec : nat) (f : float) (s : string) : Prop :=
  match Prim2SF f with
  | S754_nan => s = "nan"
  | S754_infinity sg => s = (if sg then "-inf" else "inf")
  | S754_zero sg => exists t, s = (if sg then "-" else "") +:+ t /\ fixed_point prec 0 t
  | S754_finite _ _ _ => exists q, exact_double f = Some q /\ fixed_point prec q s
  end.

(** The same for an int or a double: an int is written as the double
    nearest to it. *)
Definition written (prec : nat) (x : num) (s : string) : Prop :=
  exists f, to_float x = Ok f /\ written_double prec f s.

End Checkpoint.

Arguments io_ret {T A} a w.
Arguments io_bind {T A B} m k w.

(** *** A torch and a world to run the two functions on

    A state dict is a text together with the device that holds its tensors,
    and its pickle is the text.  A module records how it was constructed, the
    state dict it was given last, the device that holds it and whether it is
    wrapped.  An empty file does not unpickle, and the state dict
    [other-net] fits no module. *)
Record recorded_net : Type := {
  built : string * bool * bool * Z;
  loaded : option (device * string);
  held_on : device;
  parallel : bool
}.

Definition recorded_torch : torch :=
  {| weights := device * string;
     net := recorded_net;
     arch := string;
     pickle := fun w => snd w;
     unpickle := fun map_location bytes =>
       if String.eqb bytes "" then Raise EOFError else Ok (map_location, bytes);
     MyDenseNet := fun model_type pretrained memory_efficient classes =>
       Ok {| built := (model_type, pretrained, memory_efficient, classes);
             loaded := None; held_on := Cpu; parallel := false |};
     load_state_dict := fun n w =>
       if String.eqb (snd w) "other-net" then Raise RuntimeError
       else Ok {| built := built n; loaded := Some w;
                  held_on := held_on n; parallel := parallel n |};
     cuda := fun n =>
       Ok {| built := built n; loaded := loaded n;
             held_on := Cuda; parallel := parallel n |};
     DataParallel := fun n =>
       Ok {| built := built n; loaded := loaded n;
             held_on := held_on n; parallel := true |};
     device_of := held_on;
     wrapped := parallel |}.

Definition epoch_7 : @checkpoint recorded_torch :=
  {| epoch := Int 7;
     train_loss := Float 0.5;
     train_error := Float 0.0078125;
     valid_loss := Float 0.6875;
     valid_error := Float 0.25;
     state_dict := ((Cuda, "weights-7") : @weights recorded_torch);
     best_accuracy := Float 0.75;
     counter := 3 |}.

(** A world with no file in which every path can be written, one in which no
    path can, its directory missing, and one in which best_model.pth alone
    may not be written. *)
Definition empty_directory : @world recorded_torch :=
  {| files := ∅;
     open_error := fun _ => None;
     read_error := fun _ => None;
     events := [] |}.


Definition protected_weights : @world recorded_torch :=
  {| files := {[ "runs/best_model.pth" := "weights-3" ]};
     open_error := fun path =>
       if String.eqb path "runs/best_model.pth" then Some (Exception "PermissionError")
       else None;
     read_error := fun _ => None;
     events := [] |}.

(** A world after training: best_model.pth holds weights saved from CUDA;
    and one in which the file is there and empty. *)
Definition trained : @world recorded_torch :=
  {| files := {[ "runs/best_model.pth" := "weights-7" ]};
     open_error := fun _ => None;
     read_error := fun _ => None;
     events := [] |}.

Definition truncated : @world recorded_torch :=
  {| files := {[ "runs/best_model.pth" := "" ]};
     open_error := fun _ => None;
     read_error := fun _ => None;
     events := [] |}.

Definition two_gpus : cuda_env := {| is_available := true; device_count := 2 |}.
Definition one_gpu : cuda_env := {| is_available := true; device_count := 1 |}.
Definition no_gpu : cuda_env := {| is_available := false; device_count := 0 |}.

End Py.

(** * Properties *)

(** ** AverageMeter *)

Section AverageMeterFacts.
Import AverageMeter.



Lemma last_default {A : Type} (l : list A) (d d' : A) :
  l <> [] -> List.last l d = List.last l d'.
Proof.
  induction l as [|a [|b l] IH]; intros H; [congruence | reflexivity |].
  change (List.last (b :: l) d = List.last (b :: l) d'). apply IH. congruence.
Qed.

(** One step that divides by a count other than zero. *)
Lemma update_ok self v n :
  (count self + n <> 0)%Z ->
  update self v n =
    ({| val := v;
        avg := ((sum self + v * inject_Z n) / inject_Z (count self + n))%Q;
        sum := (sum self + v * inject_Z n)%Q;
        count := (count self + n)%Z |}, Ok tt).
Proof.
  intros H. unfold update, py_div; simpl.
  destruct (Z.eqb_spec (count self + n) 0); [contradiction | reflexivity].
Qed.


(** The invariant of a run of updates with positive weights, started from
    any meter whose count is not negative. *)
Lemma updates_spec calls : forall self,
  positive_weights calls -> (0 <= count self)%Z ->
  exists m, updates self calls = (m, Ok tt)
    /\ (sum m == sum self + weighted_sum calls)%Q
    /\ count m = (count self + total_weight calls)%Z
    /\ (calls <> [] ->
          avg m = (sum m / inject_Z (count m))%Q
          /\ val m = fst (List.last calls (val self, 0%Z))).
Proof.
  induction calls as [|[v n] rest IH]; intros self Hpos Hc.
  - exists self. simpl. split; [reflexivity|]. split; [ring|].
    split; [lia|]. intros H; congruence.
  - inversion Hpos as [|c l Hn Hrest]; subst; simpl in Hn.
    simpl updates. rewrite update_ok by lia.
    destruct (IH {| val := v;
                    avg := ((sum self + v * inject_Z n) / inject_Z (count self + n))%Q;
                    sum := (sum self + v * inject_Z n)%Q;
                    count := (count self + n)%Z |} Hrest) as (m & Hm & Hs & Hcnt & Hlast);
      [simpl; lia|].
    exists m. simpl in Hs, Hcnt, Hlast.
    split; [exact Hm|]. split; [simpl; rewrite Hs; ring|].
    split; [simpl; lia|]. intros _.
    destruct rest as [|c' rest'].
    + simpl in Hm. inversion Hm; subst m; simpl. split; reflexivity.
    + destruct Hlast as (Ha & Hv); [congruence|].
      split; [exact Ha|].
      rewrite Hv. change (List.last ((v, n) :: c' :: rest') (val self, 0%Z))
        with (List.last (c' :: rest') (val self, 0%Z)).
      f_equal. apply last_default; congruence.
Qed.



End AverageMeterFacts.

(** ** evaluate *)

Lemma bind_ok {A B : Type} (r : result A) (k : A -> result B) (b : B) :
  bind r k = Ok b -> exists a, r = Ok a /\ k a = Ok b.
Proof.
  destruct r as [a|e]; simpl; intros H; [eauto | discriminate].
Qed.

Lemma py_div_ok x n y :
  py_div x n = Ok y -> n <> 0%Z /\ y = (x / inject_Z n)%Q.
Proof.
  unfold py_div. destruct (Z.eqb_spec n 0); intros H; inversion H; auto.
Qed.

Lemma py_mod_ok a b r :
  py_mod a b = Ok r -> b <> 0%Z /\ r = (a mod b)%Z.
Proof.
  unfold py_mod. destruct (Z.eqb_spec b 0); intros H; inversion H; auto.
Qed.

Lemma updated_ok p m :
  AverageMeter.updated p = Ok m -> p = (m, Ok tt).
Proof.
  destruct p as [m' [[]|e]]; simpl; intros H; inversion H; reflexivity.
Qed.

Section EvaluateFacts.

Context {F : framework}.

(** The tensor expressions of the loop body say what they should. *)
Lemma ne_sum_topk1 (xs : list sample) (ts : list Z) :
  ne_sum (squeeze (topk1 (map model xs))) ts = n_wrong (combine xs ts).
Proof.
  unfold ne_sum, n_wrong, squeeze, topk1. f_equal.
  revert ts. induction xs as [|x xs IH]; intros [|t ts]; simpl; try reflexivity.
  unfold misclassified at 1, prediction; simpl.
  destruct (negb (top1 (model x) =? t)%Z); simpl; rewrite IH; reflexivity.
Qed.

Lemma row_losses (xs : list sample) (ts : list Z) :
  map (fun '(row, t) => sample_loss row t) (combine (map model xs) ts)
  = map loss_of (combine xs ts).
Proof.
  revert ts. induction xs as [|x xs IH]; intros [|t ts]; simpl; try reflexivity.
  rewrite IH. reflexivity.
Qed.

Lemma first_of_topk1 (xs : list sample) :
  map (fun i => nth 0 i 0%Z) (topk1 (map model xs)) = map prediction xs.
Proof.
  unfold topk1. induction xs as [|x xs IH]; simpl; [reflexivity|].
  rewrite IH. reflexivity.
Qed.

Lemma n_samples_well_formed (b : batch) :
  well_formed b = true -> n_samples (samples_of b) = batch_size_of b.
Proof.
  unfold well_formed, n_samples, samples_of, batch_size_of.
  intros H. apply Nat.eqb_eq in H. rewrite length_combine. f_equal. lia.
Qed.

Lemma cross_entropy_ok (xs : list sample) (ts : list Z) (l : Q) :
  cross_entropy (map model xs) ts = Ok l ->
  length xs = length ts
  /\ l = (total_loss (combine xs ts) / inject_Z (Z.of_nat (length ts)))%Q.
Proof.
  unfold cross_entropy, total_loss. rewrite length_map, row_losses.
  destruct (Nat.eqb_spec (length xs) (length ts)); intros H; inversion H; auto.
Qed.

(** What one pass through the loop body does when it raises nothing. *)
Lemma evaluate_batch_inv pf it len st idx (b : batch) st' :
  evaluate_batch pf it len st idx b = Ok st' ->
  well_formed b = true /\ non_empty b = true /\ pf <> 0%Z
  /\ AverageMeter.update (error st) (fst (error_call b)) (snd (error_call b))
     = (error st', Ok tt)
  /\ AverageMeter.update (losses st) (fst (losses_call b)) (snd (losses_call b))
     = (losses st', Ok tt)
  /\ AverageMeter.update (batch_time st) (time_at (clock st) - end_ st)%Q 1
     = (batch_time st', Ok tt)
  /\ target_list st' = target_list st ++ target b
  /\ pred_top1_list st' = pred_top1_list st ++ map prediction (input b).
Proof.
  unfold evaluate_batch. intros H.
  apply bind_ok in H as (loss & Hloss & H). apply cross_entropy_ok in Hloss as [Hlen ->].
  apply bind_ok in H as (err & Herr & H). apply py_div_ok in Herr as [HB ->].
  apply bind_ok in H as (error' & He & H). apply updated_ok in He.
  apply bind_ok in H as (l & Hl & H). apply py_div_ok in Hl as [_ ->].
  apply bind_ok in H as (losses' & Hlo & H). apply updated_ok in Hlo.
  apply bind_ok in H as (bt' & Hbt & H). apply updated_ok in Hbt.
  apply bind_ok in H as (r & Hr & H). apply py_mod_ok in Hr as [Hpf ->].
  inversion H; subst st'; clear H; simpl.
  assert (Hwf : well_formed b = true) by (apply Nat.eqb_eq; exact Hlen).
  assert (Hn : n_samples (samples_of b) = batch_size_of b)
    by (apply n_samples_well_formed; exact Hwf).
  split; [exact Hwf|]. split; [apply Nat.ltb_lt; lia|]. split; [exact Hpf|].
  rewrite first_of_topk1. rewrite ne_sum_topk1 in He.
  unfold error_call, losses_call, batch_error, batch_mean_loss; simpl.
  rewrite Hn. unfold batch_size_of, samples_of.
  repeat split; assumption.
Qed.


Lemma evaluate_loop_inv pf it len (batches : list batch) : forall st idx st',
  evaluate_loop pf it len st idx batches = Ok st' ->
  forallb good_batch batches = true
  /\ (batches <> [] -> pf <> 0%Z)
  /\ AverageMeter.updates (error st) (map error_call batches) = (error st', Ok tt)
  /\ AverageMeter.updates (losses st) (map losses_call batches) = (losses st', Ok tt)
  /\ target_list st' = target_list st ++ concat (map target batches)
  /\ pred_top1_list st'
     = pred_top1_list st ++ map prediction (concat (map input batches)).
Proof.
  induction batches as [|b rest IH]; intros st idx st' H; simpl in H.
  - inversion H; subst. simpl. rewrite !app_nil_r. repeat split; congruence.
  - apply bind_ok in H as (st1 & H1 & H).
    apply evaluate_batch_inv in H1 as (Hwf & Hne & Hpf & He & Hl & _ & Ht & Hp).
    apply IH in H as (Hg & _ & He' & Hl' & Ht' & Hp').
    cbn [map forallb concat AverageMeter.updates].
    unfold good_batch at 1. rewrite Hwf, Hne, Hg.
    split; [reflexivity|]. split; [intros _; exact Hpf|].
    destruct (error_call b) as [ev en]. destruct (losses_call b) as [lv ln].
    cbn [fst snd] in He, Hl. rewrite He, Hl.
    split; [exact He'|]. split; [exact Hl'|].
    rewrite Ht', Ht, Hp', Hp, map_app, <- !app_assoc. split; reflexivity.
Qed.


Lemma evaluate_inv (loader : list batch) pf it bt l e tl pl :
  evaluate loader pf it = Ok (bt, l, e, (tl, pl)) ->
  forallb good_batch loader = true
  /\ (exists m, AverageMeter.updates AverageMeter.init (map error_call loader) = (m, Ok tt)
                /\ e = AverageMeter.avg m)
  /\ (exists m, AverageMeter.updates AverageMeter.init (map losses_call loader) = (m, Ok tt)
                /\ l = AverageMeter.avg m)
  /\ tl = concat (map target loader)
  /\ pl = map prediction (concat (map input loader)).
Proof.
  unfold evaluate, evaluate_run. intros H.
  apply bind_ok in H as (st & Hst & H). inversion H; subst; clear H.
  apply evaluate_loop_inv in Hst as (Hg & _ & He & Hl & Ht & Hp).
  simpl in He, Hl, Ht, Hp. eauto 10.
Qed.


Lemma batch_size_pos (b : batch) : good_batch b = true -> (1 <= batch_size_of b)%Z.
Proof.
  unfold good_batch, non_empty, batch_size_of. intros H.
  apply andb_prop in H as [_ H]. apply Nat.ltb_lt in H. lia.
Qed.

Lemma good_n_samples (b : batch) :
  good_batch b = true -> n_samples (samples_of b) = batch_size_of b.
Proof.
  intros H. apply andb_prop in H as [H _]. apply n_samples_well_formed, H.
Qed.


Lemma n_samples_app l1 l2 : n_samples (l1 ++ l2) = (n_samples l1 + n_samples l2)%Z.
Proof.
  unfold n_samples. rewrite length_app. lia.
Qed.

Section Calls.

Variable loader : list batch.
Hypothesis Hgood : forallb good_batch loader = true.




Lemma losses_calls_positive : AverageMeter.positive_weights (map losses_call loader).
Proof.
  induction loader as [|b rest IH]; simpl in *; [constructor|].
  apply andb_prop in Hgood as [Hb Hrest]. constructor; [|apply IH, Hrest].
  simpl. apply batch_size_pos, Hb.
Qed.

Lemma losses_calls_weight :
  AverageMeter.total_weight (map losses_call loader) = n_samples (samples loader).
Proof.
  induction loader as [|b rest IH]; simpl in *; [reflexivity|].
  apply andb_prop in Hgood as [Hb Hrest].
  unfold samples in *. simpl. rewrite n_samples_app, IH, good_n_samples by assumption.
  reflexivity.
Qed.

(** The losses meter adds up the mean losses of the batches. *)
Lemma losses_calls_sum :
  (AverageMeter.weighted_sum (map losses_call loader)
   == Qsum (map batch_mean_loss loader))%Q.
Proof.
  induction loader as [|b rest IH]; simpl in *; [reflexivity|].
  apply andb_prop in Hgood as [Hb Hrest]. rewrite IH by assumption.
  pose proof (batch_size_pos b Hb) as Hpos.
  assert (~ (inject_Z (batch_size_of b) == 0)%Q)
    by (intros E; unfold Qeq in E; simpl in E; lia).
  field. assumption.
Qed.

End Calls.

(** The average a meter reports after calls with positive weights. *)
Lemma meter_average (calls : list (Q * Z)) (m : AverageMeter.t) :
  AverageMeter.positive_weights calls ->
  AverageMeter.updates AverageMeter.init calls = (m, Ok tt) ->
  (AverageMeter.avg m
   == AverageMeter.weighted_sum calls / inject_Z (AverageMeter.total_weight calls))%Q.
Proof.
  intros Hpos Hm.
  destruct (updates_spec calls AverageMeter.init Hpos) as (m' & Hm' & Hs & Hc & Hrest);
    [simpl; lia|].
  rewrite Hm in Hm'. inversion Hm'; subst m'; clear Hm'.
  destruct calls as [|c calls].
  - simpl in Hm. inversion Hm; subst m. reflexivity.
  - destruct Hrest as [Ha _]; [congruence|].
    rewrite Ha, Hs, Hc. simpl AverageMeter.sum. simpl AverageMeter.count.
    rewrite Qplus_0_l, Z.add_0_l. reflexivity.
Qed.

(** What the second result of evaluate is: the sum of the batch means over
    the number of samples. *)
Lemma evaluate_loss_value (loader : list batch) pf it bt l e lists :
  evaluate loader pf it = Ok (bt, l, e, lists) ->
  (l == Qsum (map batch_mean_loss loader) / inject_Z (n_samples (samples loader)))%Q.
Proof.
  destruct lists as [tl pl]. intros H.
  apply evaluate_inv in H as (Hg & _ & (m & Hm & ->) & _).
  rewrite (meter_average _ m (losses_calls_positive loader Hg) Hm).
  rewrite (losses_calls_sum loader Hg), (losses_calls_weight loader Hg). reflexivity.
Qed.




End EvaluateFacts.

(** C3: on a loader of one batch of two samples whose losses are 1/2 and
    3/2, evaluate returns 1/2 as its second result, while the mean loss per
    sample is 1: line 124 divides the batch mean that cross_entropy returns by
    the batch size once more. *)
Theorem evaluate_loss_divided_twice :
  exists bt l e lists,
    evaluate (F := table_framework) one_batch_loader 1 false = Ok (bt, l, e, lists)
    /\ (l == 1 # 2)%Q
    /\ (total_loss (samples one_batch_loader)
        / inject_Z (n_samples (samples one_batch_loader)) == 1)%Q
    /\ ~ (l == total_loss (samples one_batch_loader)
               / inject_Z (n_samples (samples one_batch_loader)))%Q.
Proof.
  eexists _, _, _, _. split; [vm_compute; reflexivity|].
  split; [reflexivity|]. split; [reflexivity|].
  vm_compute. discriminate.
Qed.

(** ** Formatting and paths *)

Lemma append_assoc (a b c : string) : (a +:+ b) +:+ c = a +:+ (b +:+ c).
Proof.
  induction a as [|x a IH]; [reflexivity|].
  change (String x ((a +:+ b) +:+ c) = String x (a +:+ (b +:+ c))). f_equal. exact IH.
Qed.

Lemma newlines_app (a b : string) : newlines (a +:+ b) = newlines a + newlines b.
Proof.
  induction a as [|x a IH]; [reflexivity|].
  change (String x a +:+ b) with (String x (a +:+ b)). simpl. rewrite IH. lia.
Qed.

Lemma newlines_uint (d : Decimal.uint) : newlines (NilEmpty.string_of_uint d) = 0.
Proof.
  induction d; simpl; [reflexivity | assumption ..].
Qed.

Lemma newlines_digits (z : Z) : newlines (digits z) = 0.
Proof.
  unfold digits, NilZero.string_of_uint.
  destruct (N.to_uint (Z.to_N z)) eqn:E; try reflexivity;
    rewrite <- E; apply newlines_uint.
Qed.

Lemma newlines_format_d (z : Z) : newlines (format_d z) = 0.
Proof.
  unfold format_d, NilZero.string_of_int, NilZero.string_of_uint.
  destruct (Z.to_int z) as [d|d]; destruct d eqn:E; try reflexivity;
    rewrite <- E; simpl; apply newlines_uint.
Qed.

Lemma newlines_zeros (k : nat) : newlines (zeros k) = 0.
Proof.
  induction k; simpl; [reflexivity | assumption].
Qed.

Lemma newlines_format_f (prec : nat) (q : Q) : newlines (format_f prec q) = 0.
Proof.
  unfold format_f. rewrite !newlines_app, newlines_digits.
  destruct (Qnum q <? 0)%Z; destruct prec; simpl;
    rewrite ?newlines_app, ?newlines_zeros, ?newlines_digits; reflexivity.
Qed.

(** The two files of a checkpoint directory are different files. *)
Lemma log_is_not_best (save_path : string) :
  os_path_join save_path "log.txt" <> os_path_join save_path "best_model.pth".
Proof.
  unfold os_path_join. simpl String.prefix.
  destruct (String.eqb save_path "" || ends_with_sep save_path)%bool;
    intros E; apply String.app_inj in E; discriminate.
Qed.

Lemma append_empty (a : string) : a +:+ "" = a.
Proof.
  induction a as [|x a IH]; [reflexivity|].
  change (String x (a +:+ "") = String x a). f_equal. exact IH.
Qed.

(** ** save_checkpoint *)

Example save_checkpoint_epoch_7 :
  save_checkpoint epoch_7 true "out" 3
  = ([FileAppend "out/log.txt"
        ("Epoch 7,train_loss 0.500000,train_error 0.125000,valid_loss 0.66667,valid_error 0.25000"
         +:+ nl);
      TorchSave "out/best_model.pth" "weights-7";
      LoggerInfo ("Get better top1 accuracy: 0.7500 saving weights to out/best_model.pth" +:+ nl);
      FileAppend "out/log.txt"
        ("Get better top1 accuracy: 0.7500 saving weights to out/best_model.pth" +:+ nl);
      LoggerInfo "early stopped.";
      FileAppend "out/log.txt" ("early stopped." +:+ nl)],
     true).
Proof. vm_compute. reflexivity. Qed.

(** ** get_transform *)

(** C7: get_transform returns the training pipeline and the evaluation
    pipeline; the evaluation pipeline is Resize(256), CenterCrop(224),
    ToTensor, Normalize with mean [0.485, 0.456, 0.406] and std [0.229, 0.224,
    0.225], and has no random transform; the training pipeline is the same
    with one random transform more, RandomHorizontalFlip, after the crop. *)
Theorem get_transform_pipelines :
  let train := fst get_transform in
  let test := snd get_transform in
  test = [Resize 256; CenterCrop 224; ToTensor;
          Normalize [0.485; 0.456; 0.406]%Q [0.229; 0.224; 0.225]%Q]
  /\ List.filter (fun t => negb (is_random t)) train = test
  /\ List.filter is_random train = [RandomHorizontalFlip 0.5]
  /\ train = firstn 2 test ++ [RandomHorizontalFlip 0.5] ++ skipn 2 test
  /\ forallb (fun t => negb (is_random t)) test = true.
Proof.
  vm_compute. repeat split; reflexivity.
Qed.

(** ** The properties on concrete runs *)

Example save_checkpoint_files :
  let fs := fst (save_checkpoint_on text_pickle {["out/log.txt" := "header" +:+ nl]}
                   epoch_7 true "out" 3) in
  fs !! "out/best_model.pth" = Some "weights-7"
  /\ fs !! "out/log.txt"
     = Some ("header" +:+ nl
             +:+ "Epoch 7,train_loss 0.500000,train_error 0.125000,valid_loss 0.66667,valid_error 0.25000"
             +:+ nl
             +:+ "Get better top1 accuracy: 0.7500 saving weights to out/best_model.pth"
             +:+ nl
             +:+ "early stopped." +:+ nl).
Proof. vm_compute. split; reflexivity. Qed.



(** * Further properties *)


(** ** evaluate: the error as a rate, and the log *)

Section EvaluateMore.

Context {F : framework}.




Lemma evaluate_batch_clock pf it len st idx (b : batch) st' :
  evaluate_batch pf it len st idx b = Ok st' ->
  clock st' = S (S (clock st)) /\ end_ st' = time_at (S (clock st))
  /\ Z.of_nat (length (logged st'))
     = (Z.of_nat (length (logged st)) + (if (idx mod pf =? 0)%Z then 1 else 0))%Z.
Proof.
  unfold evaluate_batch. intros H.
  apply bind_ok in H as (loss & _ & H). apply bind_ok in H as (err & _ & H).
  apply bind_ok in H as (error' & _ & H). apply bind_ok in H as (l & _ & H).
  apply bind_ok in H as (losses' & _ & H). apply bind_ok in H as (bt' & _ & H).
  apply bind_ok in H as (r & Hr & H). apply py_mod_ok in Hr as [_ ->].
  inversion H; subst st'; clear H. cbn [clock end_ logged].
  split; [reflexivity|]. split; [reflexivity|].
  destruct (idx mod pf =? 0)%Z; [rewrite length_app; simpl; lia | lia].
Qed.

Lemma evaluate_loop_logged pf it len (batches : list batch) : forall st idx st',
  (0 < pf)%Z ->
  evaluate_loop pf it len st idx batches = Ok st' ->
  (Z.of_nat (length (logged st'))
   = Z.of_nat (length (logged st))
     + (idx + Z.of_nat (length batches) + pf - 1) / pf - (idx + pf - 1) / pf)%Z.
Proof.
  induction batches as [|b rest IH]; intros st idx st' Hpf H.
  - simpl in *. inversion H; subst. rewrite Z.add_0_r. lia.
  - cbn [evaluate_loop] in H. apply bind_ok in H as (st1 & H1 & H).
    destruct (evaluate_batch_clock _ _ _ _ _ _ _ H1) as (_ & _ & Hlog).
    rewrite (IH st1 (idx + 1)%Z st' Hpf H), Hlog. cbn [length].
    replace (idx + 1 + Z.of_nat (length rest) + pf - 1)%Z
      with (idx + Z.of_nat (S (length rest)) + pf - 1)%Z by lia.
    assert (Hstep : ((idx + 1 + pf - 1) / pf - (idx + pf - 1) / pf
                     = if (idx mod pf =? 0) then 1 else 0)%Z).
    { pose proof (Z.div_mod idx pf ltac:(lia)) as Hdm.
      pose proof (Z.mod_pos_bound idx pf Hpf) as Hb.
      replace (idx + 1 + pf - 1)%Z with (idx + 1 * pf)%Z by lia.
      rewrite Z.div_add by lia.
      destruct (Z.eqb_spec (idx mod pf) 0) as [E | E].
      - rewrite <- (Z.div_unique (idx + pf - 1) pf (idx / pf) (pf - 1)); lia.
      - rewrite <- (Z.div_unique (idx + pf - 1) pf (idx / pf + 1) (idx mod pf - 1)); lia. }
    lia.
Qed.

(** X12: with a positive print_freq, a run over k batches that returns has
    logged one message for every print_freq-th batch, the first batch
    included: the integer part of (k + print_freq - 1) / print_freq messages
    in all. *)
Theorem evaluate_logs_every_print_freq (loader : list batch) (pf : Z) (is_test : bool)
    (st : eval_state) :
  (0 < pf)%Z -> evaluate_run loader pf is_test = Ok st ->
  Z.of_nat (length (logged st)) = ((Z.of_nat (length loader) + pf - 1) / pf)%Z.
Proof.
  unfold evaluate_run. intros Hpf H.
  rewrite (evaluate_loop_logged _ _ _ loader evaluate_start 0%Z st Hpf H).
  cbn [logged evaluate_start length]. rewrite !Z.add_0_l.
  rewrite (Z.div_small (pf - 1) pf) by lia. lia.
Qed.

End EvaluateMore.

(** ** save_checkpoint and load_model together *)

Section CheckpointMore.

Context {weights : Type}.
Variable pickle : weights -> string.

(** The contents of best_model.pth after a call. *)
Lemma best_after (state : checkpoint weights) (is_best : bool) (save_path : string)
    (patience : Z) (fs : gmap string string) :
  exec pickle fs (fst (save_checkpoint state is_best save_path patience))
    !! os_path_join save_path "best_model.pth"
  = if is_best then Some (pickle (state_dict state))
    else fs !! os_path_join save_path "best_model.pth".
Proof.
  pose proof (log_is_not_best save_path) as Hne.
  unfold save_checkpoint. cbn [fst].
  destruct is_best, (counter state >=? patience)%Z; cbn [app exec fold_left apply_event];
    simplify_map_eq; reflexivity.
Qed.

Lemma newlines_join (a b : string) :
  newlines (os_path_join a b) = (if String.prefix "/" b then 0 else newlines a) + newlines b.
Proof.
  unfold os_path_join. destruct (String.prefix "/" b); [reflexivity|].
  destruct (String.eqb a "" || ends_with_sep a)%bool;
    rewrite ?newlines_app; simpl; lia.
Qed.






Section WithClassifier.

Context {net arch : Type}.
Variable unpickle : string -> option weights.
Variable MyDenseNet : arch -> bool -> bool -> Z -> net.
Variable load_state_dict : net -> weights -> result net.

(** X18: a call of save_checkpoint with is_best false changes nothing for
    load_model on the same path: it returns, or raises, what it would have
    before the call. *)
Theorem save_without_best_keeps_model (state : checkpoint weights) (path : string)
    (patience : Z) (fs : gmap string string) (env : cuda_env) (model_type : arch)
    (memory_efficient : bool) (num_classes : Z) :
  load_model unpickle MyDenseNet load_state_dict
    (fst (save_checkpoint_on pickle fs state false path patience))
    env path model_type memory_efficient num_classes
  = load_model unpickle MyDenseNet load_state_dict fs
      env path model_type memory_efficient num_classes.
Proof.
  unfold save_checkpoint_on, load_model, torch_load.
  destruct (save_checkpoint state false path patience) as [out stop] eqn:E.
  cbn [fst]. replace out with (fst (save_checkpoint state false path patience))
    by (rewrite E; reflexivity).
  rewrite best_after. reflexivity.
Qed.

End WithClassifier.

End CheckpointMore.

(** ** The further properties on concrete runs *)


Lemma evaluate_logs_every_print_freq_witness :
  exists st,
    evaluate_run (F := table_framework) two_batch_loader 2 false = Ok st
    /\ Z.of_nat (length (logged st)) = ((Z.of_nat (length two_batch_loader) + 2 - 1) / 2)%Z.
Proof.
  eexists. split; [vm_compute; reflexivity|].
  apply (evaluate_logs_every_print_freq (F := table_framework) two_batch_loader 2 false);
    [reflexivity | vm_compute; reflexivity].
Defined.


(** * Properties on Python's numbers and a fallible environment *)

(** ** AverageMeter *)

Section PyMeterFacts.
Import Py Py.AverageMeter.

Lemma py_update_inv self v n m :
  update self v n = (m, Ok tt) ->
  exists p s a,
    mul v (Int n) = Ok p /\ add (sum self) p = Ok s
    /\ truediv s (Int (count self + n)) = Ok a
    /\ m = {| val := v; avg := a; sum := s; count := (count self + n)%Z |}.
Proof.
  unfold update. cbn [val avg sum count].
  destruct (mul v (Int n)) as [p|e] eqn:Hp; cbn [bind]; [|intros H; inversion H].
  destruct (add (sum self) p) as [s|e] eqn:Hs; [|intros H; inversion H].
  destruct (truediv s (Int (count self + n))) as [a|e] eqn:Ha; intros H; inversion H.
  exists p, s, a. auto.
Qed.

(** The invariant of a run of updates that raises nothing. *)
Lemma py_updates_spec calls : forall self m,
  updates self calls = (m, Ok tt) ->
  accumulated (sum self) calls = Ok (sum m)
  /\ count m = (count self + total_weight calls)%Z
  /\ (calls <> [] ->
        truediv (sum m) (Int (count m)) = Ok (avg m)
        /\ val m = fst (List.last calls (val self, 0%Z))).
Proof.
  induction calls as [|[v n] rest IH]; intros self m H.
  - simpl in H. inversion H; subst. simpl. split; [reflexivity|].
    split; [lia|]. congruence.
  - cbn [updates] in H. destruct (update self v n) as [self1 [[]|e]] eqn:Hu;
      [|inversion H].
    apply py_update_inv in Hu as (p & s & a & Hp & Hs & Ha & ->).
    cbn [accumulated total_weight]. rewrite Hp. cbn [bind]. rewrite Hs. cbn [bind].
    destruct rest as [|c rest'].
    + simpl in H. inversion H; subst m. cbn [accumulated total_weight sum count avg val].
      split; [reflexivity|]. split; [lia|]. intros _. split; [exact Ha | reflexivity].
    + apply IH in H as (Hacc & Hcnt & Hrest). cbn [sum count val] in Hacc, Hcnt, Hrest.
      destruct Hrest as [Hq Hv]; [congruence|].
      split; [exact Hacc|]. split; [lia|]. intros _. split; [exact Hq|].
      rewrite Hv. change (List.last ((v, n) :: c :: rest') (val self, 0%Z))
        with (List.last (c :: rest') (val self, 0%Z)).
      f_equal. apply last_default. congruence.
Qed.





End PyMeterFacts.



(** ** evaluate *)

Section PyEvaluateFacts.
Import Py.

Context {F : framework}.

Lemma map_result_ok {A B : Type} (f : A -> result B) (l : list A) (ys : list B) :
  map_result f l = Ok ys -> length ys = length l.
Proof.
  revert ys. induction l as [|x l IH]; intros ys H; simpl in H.
  - inversion H. reflexivity.
  - apply bind_ok in H as (y & _ & H). apply bind_ok in H as (ys' & Hys & H).
    inversion H; subst. simpl. f_equal. apply IH, Hys.
Qed.

(** The column that topk(1) returns, squeezed, is the row-wise top-1. *)
Lemma topk1_squeeze (output : list logits) (pred : list (list Z)) :
  topk1 output = Ok pred ->
  map_result top1 output = Ok (squeeze pred)
  /\ map (fun i => nth 0 i 0%Z) pred = squeeze pred.
Proof.
  unfold topk1, squeeze. revert pred.
  induction output as [|row output IH]; intros pred H; simpl in H.
  - inversion H. auto.
  - apply bind_ok in H as (y & Hy & H). apply bind_ok in Hy as (i & Hi & Hy).
    inversion Hy; subst y. apply bind_ok in H as (ys & Hys & H).
    inversion H; subst pred. destruct (IH ys Hys) as [IH1 IH2].
    cbn [map_result map concat nth app]. rewrite Hi. cbn [bind]. rewrite IH1.
    cbn [bind]. rewrite IH2. auto.
Qed.

Lemma py_updated_ok p m :
  AverageMeter.updated p = Ok m -> p = (m, Ok tt).
Proof.
  destruct p as [m' [[]|e]]; simpl; intros H; inversion H; reflexivity.
Qed.

Lemma py_evaluate_batch_inv times pf it len st idx (b : batch) st' :
  evaluate_batch times pf it len st idx b = Ok st' ->
  exists r,
    batch_error b = Ok r
    /\ AverageMeter.update (error st) r (Z.of_nat (length (target b)))
       = (error st', Ok tt)
    /\ target_list st' = target_list st ++ target b
    /\ exists preds,
         predictions b = Ok preds
         /\ pred_top1_list st' = pred_top1_list st ++ preds.
Proof.
  unfold evaluate_batch. intros H.
  apply bind_ok in H as (output & Hout & H).
  apply bind_ok in H as (loss & _ & H).
  apply bind_ok in H as (pred & Hpred & H).
  apply bind_ok in H as (err & Herr & H).
  apply bind_ok in H as (error' & He & H). apply py_updated_ok in He.
  apply bind_ok in H as (l & _ & H).
  apply bind_ok in H as (losses' & _ & H).
  apply bind_ok in H as (d & _ & H).
  apply bind_ok in H as (bt' & _ & H).
  apply bind_ok in H as (r & _ & H).
  apply bind_ok in H as (logged' & _ & H).
  inversion H; subst st'; clear H. cbn [error target_list pred_top1_list].
  destruct (topk1_squeeze output pred Hpred) as [Hsq Hnth].
  assert (Hp : predictions b = Ok (squeeze pred))
    by (unfold predictions; rewrite Hout; exact Hsq).
  exists err. split.
  - unfold batch_error. rewrite Hp. cbn [bind]. exact Herr.
  - split; [exact He|]. split; [reflexivity|].
    exists (squeeze pred). rewrite Hnth. auto.
Qed.

Lemma py_evaluate_loop_inv times pf it len (bs : list batch) : forall st idx st',
  evaluate_loop times pf it len st idx bs = Ok st' ->
  exists rates,
    map_result batch_error bs = Ok rates
    /\ AverageMeter.updates (error st) (combine rates (batch_sizes bs))
       = (error st', Ok tt)
    /\ target_list st' = target_list st ++ concat (map target bs)
    /\ exists preds,
         map_result predictions bs = Ok preds
         /\ pred_top1_list st' = pred_top1_list st ++ concat preds.
Proof.
  induction bs as [|b rest IH]; intros st idx st' H; cbn [evaluate_loop] in H.
  - inversion H; subst. exists []. simpl. rewrite !app_nil_r.
    repeat split; try reflexivity. exists []. rewrite app_nil_r. auto.
  - apply bind_ok in H as (st1 & H1 & H).
    apply py_evaluate_batch_inv in H1 as (r & Hr & Hu & Ht & p & Hp & Hpl).
    apply IH in H as (rates & Hrates & Hus & Hts & ps & Hps & Hpls).
    exists (r :: rates). cbn [map_result batch_sizes map combine AverageMeter.updates concat].
    rewrite Hr. cbn [bind]. rewrite Hrates. cbn [bind]. rewrite Hu.
    split; [reflexivity|]. split; [exact Hus|].
    split; [rewrite Hts, Ht, <- app_assoc; reflexivity|].
    exists (p :: ps). rewrite Hp. cbn [bind]. rewrite Hps. cbn [bind concat].
    split; [reflexivity|]. rewrite Hpls, Hpl, <- app_assoc. reflexivity.
Qed.

Lemma total_weight_combine (rates : list num) (sizes : list Z) :
  length rates = length sizes ->
  AverageMeter.total_weight (combine rates sizes) = fold_right Z.add 0%Z sizes.
Proof.
  revert sizes. induction rates as [|r rates IH]; intros [|n sizes] H; simpl in *;
    try discriminate; [reflexivity|]. rewrite IH by lia. reflexivity.
Qed.

Lemma sizes_total (bs : list batch) :
  fold_right Z.add 0%Z (batch_sizes bs) = Z.of_nat (length (concat (map target bs))).
Proof.
  induction bs as [|b rest IH]; [reflexivity|].
  cbn [batch_sizes map fold_right concat]. rewrite length_app, Nat2Z.inj_add.
  unfold batch_sizes in IH. rewrite IH. reflexivity.
Qed.

(** C2 (as amended): in every run of evaluate that returns, the third result
    is the average of the error rates of the batches weighted by their sizes,
    as Python computes it on doubles: each rate is the double nearest to the
    number of misclassified rows of the batch over its size, the products of
    rate and size are added to 0 in loader order, and the sum is divided by
    the number of samples of all batches, with the rounding of each operation;
    a loader with no batch gives the int 0. *)
Theorem evaluate_top1_error_in_python (times : nat -> float) (l : loader) (pf : Z)
    (is_test : bool) (bt ls e : num) (tl pl : list Z) :
  evaluate times l pf is_test = Ok (bt, ls, e, (tl, pl)) ->
  exists rates,
    map_result batch_error (batches l) = Ok rates
    /\ AverageMeter.total_weight (combine rates (batch_sizes (batches l)))
       = Z.of_nat (length tl)
    /\ (batches l <> [] ->
        weighted_average (combine rates (batch_sizes (batches l))) = Ok e)
    /\ (batches l = [] -> e = Int 0).
Proof.
  unfold evaluate, evaluate_run. intros H.
  apply bind_ok in H as (st & Hst & H). inversion H; subst; clear H.
  assert (Hempty : batches l = [] -> AverageMeter.avg (error st) = Int 0).
  { intros E. rewrite E in Hst. simpl in Hst. inversion Hst. reflexivity. }
  apply py_evaluate_loop_inv in Hst as (rates & Hrates & Hus & Hts & _).
  cbn [error target_list evaluate_start app] in Hus, Hts.
  exists rates. split; [exact Hrates|].
  assert (Hlen : length rates = length (batch_sizes (batches l))).
  { rewrite (map_result_ok _ _ _ Hrates). unfold batch_sizes. rewrite length_map.
    reflexivity. }
  split.
  { rewrite (total_weight_combine _ _ Hlen), sizes_total, Hts. reflexivity. }
  split; [|exact Hempty].
  intros Hne. apply py_updates_spec in Hus as (Hacc & Hcnt & Hrest).
  cbn [AverageMeter.sum AverageMeter.count AverageMeter.init AverageMeter.reset]
    in Hacc, Hcnt.
  destruct Hrest as [Hq _].
  { destruct (batches l) as [|b bs]; [congruence|].
    destruct rates; [simpl in Hlen; discriminate|]. simpl. discriminate. }
  unfold weighted_average. rewrite Hacc. cbn [bind].
  rewrite Z.add_0_l in Hcnt. rewrite <- Hcnt. exact Hq.
Qed.

End PyEvaluateFacts.

(** C2, as it is stated, fails on doubles: with one sample classified
    correctly and then a batch of 29 with 15 misclassified, evaluate returns
    the double 0.5000000000000001, and 15 misclassified of 30 is 0.5. *)
Lemma evaluate_error_not_exact :
  exists bt ls e tl pl q,
    Py.evaluate (F := Py.table_framework) Py.seconds Py.rounding_loader 1 false
    = Ok (bt, ls, e, (tl, pl))
    /\ ne_sum pl tl = 15%Z /\ Z.of_nat (length tl) = 30%Z
    /\ Py.exact e = Some q
    /\ ~ (q == 15 # 30)%Q.
Proof.
  eexists _, _, _, _, _, _. split; [vm_compute; reflexivity|].
  split; [vm_compute; reflexivity|]. split; [vm_compute; reflexivity|].
  split; [vm_compute; reflexivity|]. vm_compute. discriminate.
Qed.

Lemma evaluate_top1_error_in_python_witness :
  exists bt ls e tl pl rates,
    Py.evaluate (F := Py.table_framework) Py.seconds Py.rounding_loader 1 false
    = Ok (bt, ls, e, (tl, pl))
    /\ Py.map_result Py.batch_error (Py.batches Py.rounding_loader) = Ok rates
    /\ Py.weighted_average (combine rates (Py.batch_sizes (Py.batches Py.rounding_loader)))
       = Ok e.
Proof.
  eexists _, _, _, _, _.
  assert (Hrun : Py.evaluate (F := Py.table_framework) Py.seconds Py.rounding_loader 1 false
                 = Ok (Py.Float 1, Py.Float (2 / 30), Py.Float ((0 + 15 / 29 * 29) / 30),
                       (0%Z :: repeat 0%Z 15 ++ repeat 1%Z 14, 0%Z :: repeat 1%Z 29)))
    by (vm_compute; reflexivity).
  destruct (evaluate_top1_error_in_python (F := Py.table_framework) _ _ _ _ _ _ _ _ _ Hrun)
    as (rates & Hrates & _ & Havg & _).
  exists rates. split; [exact Hrun|]. split; [exact Hrates|].
  apply Havg. discriminate.
Defined.

(** ** What the formatting functions write *)

Lemma round_half_even_spec (a b : Z) :
  (0 <= a)%Z -> (0 < b)%Z ->
  (0 <= round_half_even a b)%Z /\ nearest_even a b (round_half_even a b).
Proof.
  intros Ha Hb. unfold round_half_even, nearest_even.
  pose proof (Z.div_mod a b ltac:(lia)) as Hdm.
  pose proof (Z.mod_pos_bound a b Hb) as Hm.
  pose proof (Z.div_pos a b Ha Hb) as Hq.
  destruct (Z.compare_spec (2 * (a mod b)) b) as [E | E | E].
  - destruct (Z.even (a / b)) eqn:Hev.
    + split; [lia|]. split; [nia | auto].
    + split; [lia|]. split; [nia|]. intros _.
      rewrite Z.even_add, Hev. reflexivity.
  - split; [lia|]. split; [nia | nia].
  - split; [lia|]. split; [nia | nia].
Qed.

Lemma decimal_from_acc (d : Decimal.uint) : forall acc : positive,
  decimal_from (N.pos acc) (NilEmpty.string_of_uint d)
  = Some (N.pos (Pos.of_uint_acc d acc)).
Proof.
  induction d; intros acc; cbn [NilEmpty.string_of_uint Pos.of_uint_acc decimal_from];
    [reflexivity | ..];
    (change (digit_value _) with (Some 0%N) || change (digit_value _) with (Some 1%N)
     || change (digit_value _) with (Some 2%N) || change (digit_value _) with (Some 3%N)
     || change (digit_value _) with (Some 4%N) || change (digit_value _) with (Some 5%N)
     || change (digit_value _) with (Some 6%N) || change (digit_value _) with (Some 7%N)
     || change (digit_value _) with (Some 8%N) || change (digit_value _) with (Some 9%N));
    rewrite <- IHd; f_equal; lia.
Qed.

Lemma decimal_from_uint (d : Decimal.uint) :
  decimal_from 0 (NilEmpty.string_of_uint d) = Some (Pos.of_uint d).
Proof.
  induction d; cbn [NilEmpty.string_of_uint Pos.of_uint decimal_from];
    [reflexivity | exact IHd | ..]; apply decimal_from_acc.
Qed.

Lemma to_uint_not_nil (n : N) : N.to_uint n <> Decimal.Nil.
Proof.
  intros E. pose proof (DecimalN.Unsigned.of_to n) as H. rewrite E in H.
  destruct n; [discriminate E | discriminate H].
Qed.

Lemma digits_unfold (z : Z) :
  digits z = NilEmpty.string_of_uint (N.to_uint (Z.to_N z)).
Proof.
  unfold digits, NilZero.string_of_uint.
  pose proof (to_uint_not_nil (Z.to_N z)) as H.
  destruct (N.to_uint (Z.to_N z)); [contradiction | reflexivity ..].
Qed.

Lemma uint_string_not_empty (d : Decimal.uint) :
  d <> Decimal.Nil -> NilEmpty.string_of_uint d <> EmptyString.
Proof.
  destruct d; [contradiction | discriminate ..].
Qed.

Lemma decimal_not_empty (s : string) : s <> EmptyString -> decimal s = decimal_from 0 s.
Proof.
  destruct s; [contradiction | reflexivity].
Qed.

(** [digits] writes its argument. *)
Lemma decimal_digits (z : Z) : decimal (digits z) = Some (Z.to_N z).
Proof.
  rewrite digits_unfold, decimal_not_empty
    by (apply uint_string_not_empty, to_uint_not_nil).
  rewrite decimal_from_uint. f_equal. apply DecimalN.Unsigned.of_to.
Qed.

Lemma decimal_from_lower (s : string) : forall acc v,
  decimal_from acc s = Some v -> (acc * 10 ^ N.of_nat (String.length s) <= v)%N.
Proof.
  induction s as [|c s IH]; intros acc v H; cbn [decimal_from String.length] in *.
  - inversion H. change (10 ^ N.of_nat 0)%N with 1%N. lia.
  - destruct (digit_value c) as [d|]; [|discriminate].
    apply IH in H. rewrite Nat2N.inj_succ, N.pow_succ_r'. nia.
Qed.

Lemma nzhead_not_zero (d u : Decimal.uint) : Decimal.nzhead d <> Decimal.D0 u.
Proof.
  induction d; cbn [Decimal.nzhead]; try discriminate. exact IHd.
Qed.

(** A number below [10^k] is written with at most [k] digits. *)
Lemma length_digits (z : Z) (k : nat) :
  (0 <= z < 10 ^ Z.of_nat k)%Z -> (1 <= k)%nat -> (String.length (digits z) <= k)%nat.
Proof.
  intros Hz Hk. rewrite digits_unfold.
  pose proof (decimal_from_uint (N.to_uint (Z.to_N z))) as Hdec.
  rewrite DecimalN.Unsigned.of_to in Hdec.
  pose proof (DecimalN.Unsigned.to_of (N.to_uint (Z.to_N z))) as Hnorm.
  rewrite DecimalN.Unsigned.of_to in Hnorm.
  destruct (N.to_uint (Z.to_N z)) as [|d|d|d|d|d|d|d|d|d|d] eqn:E;
    cbn [NilEmpty.string_of_uint String.length]; [lia | | ..].
  1: { (* a leading zero: the numeral is 0 *)
    unfold Decimal.unorm in Hnorm. cbn [Decimal.nzhead] in Hnorm.
    destruct (Decimal.nzhead d) eqn:En; try discriminate Hnorm.
    + inversion Hnorm; subst d. simpl. lia.
    + exfalso. exact (nzhead_not_zero d _ En). }
  all: cbn [NilEmpty.string_of_uint decimal_from] in Hdec;
    match type of Hdec with context [digit_value ?c] =>
      let v := eval vm_compute in (digit_value c) in
      change (digit_value c) with v in Hdec end;
    cbv iota beta in Hdec;
    apply decimal_from_lower in Hdec;
    assert (H10 : (10 ^ N.of_nat (String.length (NilEmpty.string_of_uint d))
                   < 10 ^ N.of_nat k)%N)
      by (apply N.le_lt_trans with (Z.to_N z); [lia|];
          apply N2Z.inj_lt; rewrite Z2N.id by lia; rewrite N2Z.inj_pow; simpl Z.of_N;
          rewrite nat_N_Z; lia);
    apply N.pow_lt_mono_r_iff in H10; lia.
Qed.

Lemma canonical_digits (z : Z) : canonical (digits z).
Proof.
  rewrite digits_unfold.
  pose proof (DecimalN.Unsigned.to_of (N.to_uint (Z.to_N z))) as Hnorm.
  rewrite DecimalN.Unsigned.of_to in Hnorm.
  destruct (N.to_uint (Z.to_N z)) as [|d|d|d|d|d|d|d|d|d|d];
    cbn [NilEmpty.string_of_uint]; [exact I | | ..].
  1: { unfold Decimal.unorm in Hnorm. cbn [Decimal.nzhead] in Hnorm.
       destruct (Decimal.nzhead d) eqn:En; try discriminate Hnorm.
       - inversion Hnorm; subst d. exact I.
       - exfalso. exact (nzhead_not_zero d _ En). }
  all: unfold canonical; destruct (NilEmpty.string_of_uint d); [exact I | discriminate].
Qed.

Lemma length_append (a b : string) :
  String.length (a +:+ b) = (String.length a + String.length b)%nat.
Proof.
  induction a as [|x a IH]; [reflexivity|].
  change (S (String.length (a +:+ b)) = S (String.length a + String.length b)).
  f_equal. exact IH.
Qed.

Lemma length_zeros (k : nat) : String.length (zeros k) = k.
Proof.
  induction k as [|k IH]; [reflexivity|]. cbn [zeros String.length]. f_equal. exact IH.
Qed.

Lemma digits_not_empty (z : Z) : digits z <> EmptyString.
Proof.
  rewrite digits_unfold. apply uint_string_not_empty, to_uint_not_nil.
Qed.

(** Zeros in front change nothing of the number written. *)
Lemma decimal_zeros (k : nat) (s : string) :
  s <> EmptyString -> decimal (zeros k +:+ s) = decimal s.
Proof.
  intros Hs. rewrite (decimal_not_empty s Hs).
  assert (H : decimal_from 0 (zeros k +:+ s) = decimal_from 0 s).
  { induction k as [|k IH]; [reflexivity|]. exact IH. }
  destruct k as [|k]; [apply decimal_not_empty; exact Hs | exact H].
Qed.

(** format_f writes the multiple of [10^-prec] nearest to its argument. *)
Lemma format_f_spec (p : nat) (q : Q) : fixed_point (S p) q (format_f (S p) q).
Proof.
  unfold fixed_point, format_f.
  set (scale := (10 ^ Z.of_nat (S p))%Z).
  set (r := round_half_even (Z.abs (Qnum q) * scale) (Z.pos (Qden q))).
  assert (Hscale : (0 < scale)%Z) by (subst scale; apply Z.pow_pos_nonneg; lia).
  destruct (round_half_even_spec (Z.abs (Qnum q) * scale) (Z.pos (Qden q)))
    as [Hr Hnear]; [lia | lia |]. fold r in Hr, Hnear.
  pose proof (Z.mod_pos_bound r scale Hscale) as Hmod.
  pose proof (Z.div_pos r scale Hr Hscale) as Hdiv.
  pose proof (Z.div_mod r scale ltac:(lia)) as Hdm.
  exists (digits (r / scale)),
         (zeros (S p - String.length (digits (r mod scale))) +:+ digits (r mod scale)),
         (Z.to_N (r / scale)), (Z.to_N (r mod scale)).
  split; [reflexivity|]. split; [apply decimal_digits|].
  split; [apply canonical_digits|].
  split; [rewrite decimal_zeros by apply digits_not_empty; apply decimal_digits|].
  split.
  - rewrite length_append, length_zeros.
    pose proof (length_digits (r mod scale) (S p) Hmod ltac:(lia)). lia.
  - rewrite !Z2N.id by lia.
    replace (r / scale * scale + r mod scale)%Z with r by lia. exact Hnear.
Qed.

(** format_d writes its argument. *)
Lemma format_d_spec (z : Z) : decimal_int z (format_d z).
Proof.
  unfold decimal_int, format_d. exists (digits (Z.abs z)).
  split; [|split; [apply decimal_digits | apply canonical_digits]].
  unfold digits. destruct z as [|p|p]; [reflexivity | reflexivity |].
  change (N.to_uint (Z.to_N (Z.abs (Z.neg p)))) with (Pos.to_uint p).
  change (Z.to_int (Z.neg p)) with (Decimal.Neg (Pos.to_uint p)).
  change (Z.neg p <? 0)%Z with true.
  unfold NilZero.string_of_int, NilZero.string_of_uint.
  pose proof (to_uint_not_nil (N.pos p)) as H.
  change (N.to_uint (N.pos p)) with (Pos.to_uint p) in H.
  destruct (Pos.to_uint p); [contradiction | reflexivity ..].
Qed.

(** format_double writes the double as Python does: its name when it is no
    number, and else the nearest multiple of [10^-prec]. *)
Lemma format_double_spec (p : nat) (f : float) :
  Py.written_double (S p) f (Py.format_double (S p) f).
Proof.
  unfold Py.written_double, Py.format_double, Py.exact_double.
  destruct (Prim2SF f) as [sg | sg | | sg m e].
  - exists (format_f (S p) 0). split; [reflexivity | apply format_f_spec].
  - reflexivity.
  - reflexivity.
  - eexists. split; [reflexivity | apply format_f_spec].
Qed.

Lemma format_num_spec (p : nat) (x : Py.num) (s : string) :
  Py.format_num (S p) x = Ok s -> Py.written (S p) x s.
Proof.
  unfold Py.format_num, Py.written. intros H.
  destruct (Py.to_float x) as [f|e]; [|discriminate H].
  cbn [bind] in H. inversion H; subst. exists f. split; [reflexivity|].
  apply format_double_spec.
Qed.

Lemma newlines_format_double (prec : nat) (f : float) :
  newlines (Py.format_double prec f) = 0.
Proof.
  unfold Py.format_double.
  destruct (Prim2SF f) as [sg | sg | | sg m e]; try destruct sg;
    rewrite ?newlines_app, ?newlines_format_f; reflexivity.
Qed.

Lemma newlines_format_num (prec : nat) (x : Py.num) (s : string) :
  Py.format_num prec x = Ok s -> newlines s = 0.
Proof.
  unfold Py.format_num. intros H.
  destruct (Py.to_float x) as [f|e]; [|discriminate H].
  cbn [bind] in H. inversion H; subst. apply newlines_format_double.
Qed.

(** ** save_checkpoint in a world where opening a file can fail *)

Section PyCheckpointFacts.
Import Py.

Context {T : torch}.


Ltac io_step := cbn [files open_error read_error events fst snd].

Ltac run_io :=
  unfold save_checkpoint, io_bind, open_append, write, torch_save, logger_info,
    lift, io_ret;
  io_step.

Ltac io_raised := let H := fresh in intros H; discriminate H.

(** A call that returns, in full. *)
Lemma save_checkpoint_inv (state : checkpoint) (is_best : bool) (save_path : string)
    (patience : Z) (w w' : world) (b : bool) :
  save_checkpoint state is_best save_path patience w = (w', Ok b) ->
  exists line msg,
    open_error w (os_path_join save_path "log.txt") = None
    /\ metrics_line state = Ok line
    /\ b = (counter state >=? patience)%Z
    /\ (if is_best
        then open_error w (os_path_join save_path "best_model.pth") = None
             /\ best_message state (os_path_join save_path "best_model.pth") = Ok msg
        else msg = "")
    /\ files w' !! os_path_join save_path "log.txt"
       = Some (default "" (files w !! os_path_join save_path "log.txt")
               +:+ line +:+ msg +:+ (if b then "early stopped." +:+ nl else ""))
    /\ files w' !! os_path_join save_path "best_model.pth"
       = (if is_best then Some (pickle (state_dict state))
          else files w !! os_path_join save_path "best_model.pth")
    /\ (forall path,
          path <> os_path_join save_path "log.txt" ->
          path <> os_path_join save_path "best_model.pth" ->
          files w' !! path = files w !! path)
    /\ events w'
       = events w
         ++ [FileAppend (os_path_join save_path "log.txt") line]
         ++ (if is_best
             then [TorchSave (os_path_join save_path "best_model.pth") (state_dict state);
                   LoggerInfo msg;
                   FileAppend (os_path_join save_path "log.txt") msg]
             else [])
         ++ (if b
             then [LoggerInfo "early stopped.";
                   FileAppend (os_path_join save_path "log.txt") ("early stopped." +:+ nl)]
             else []).
Proof.
  pose proof (log_is_not_best save_path) as Hne.
  run_io.
  destruct (open_error w (os_path_join save_path "log.txt")) eqn:Hlog; [io_raised|].
  destruct (metrics_line state) as [line|e] eqn:Hline; io_step; [|io_raised].
  destruct is_best; io_step.
  - destruct (open_error w (os_path_join save_path "best_model.pth")) eqn:Hbest;
      io_step; [io_raised|].
    destruct (best_message state (os_path_join save_path "best_model.pth"))
      as [msg|e] eqn:Hmsg; io_step; [|io_raised].
    rewrite Hlog.
    destruct (counter state >=? patience)%Z; io_step; rewrite ?Hlog;
      intros H; inversion H; subst; clear H; exists line, msg; io_step;
      repeat split; try reflexivity; try (intros; simplify_map_eq; reflexivity);
      simplify_map_eq; rewrite ?append_assoc, ?append_empty, <- ?app_assoc; reflexivity.
  - destruct (counter state >=? patience)%Z; io_step; rewrite ?Hlog;
      intros H; inversion H; subst; clear H; exists line, ""; io_step;
      repeat split; try reflexivity; try (intros; simplify_map_eq; reflexivity);
      simplify_map_eq; rewrite ?append_assoc, ?append_empty, <- ?app_assoc; reflexivity.
Qed.

(** What the line of metrics is made of. *)
Lemma metrics_line_spec (state : checkpoint) (line : string) :
  metrics_line state = Ok line ->
  exists (ez : Z) (e tl te vl ve : string),
    epoch state = Int ez /\ decimal_int ez e
    /\ written 6 (train_loss state) tl /\ written 6 (train_error state) te
    /\ written 5 (valid_loss state) vl /\ written 5 (valid_error state) ve
    /\ line = "Epoch " +:+ e +:+ ",train_loss " +:+ tl +:+ ",train_error " +:+ te
              +:+ ",valid_loss " +:+ vl +:+ ",valid_error " +:+ ve +:+ nl
    /\ newlines line = 1.
Proof.
  unfold metrics_line, format_int. intros H.
  destruct (epoch state) as [ez|f] eqn:He; [|discriminate H]. cbn [bind] in H.
  destruct (format_num 6 (train_loss state)) as [tl|x] eqn:Htl; [|discriminate H].
  cbn [bind] in H.
  destruct (format_num 6 (train_error state)) as [te|x] eqn:Hte; [|discriminate H].
  cbn [bind] in H.
  destruct (format_num 5 (valid_loss state)) as [vl|x] eqn:Hvl; [|discriminate H].
  cbn [bind] in H.
  destruct (format_num 5 (valid_error state)) as [ve|x] eqn:Hve; [|discriminate H].
  cbn [bind String.concat] in H. inversion H as [Hl]; clear H.
  exists ez, (format_d ez), tl, te, vl, ve.
  split; [reflexivity|]. split; [apply format_d_spec|].
  repeat (split; [apply format_num_spec; assumption|]).
  split; [rewrite !append_assoc; reflexivity|].
  rewrite !newlines_app, newlines_format_d,
    (newlines_format_num _ _ _ Htl), (newlines_format_num _ _ _ Hte),
    (newlines_format_num _ _ _ Hvl), (newlines_format_num _ _ _ Hve).
  reflexivity.
Qed.

(** What the message of a new best accuracy is made of. *)
Lemma best_message_spec (state : checkpoint) (path msg : string) :
  best_message state path = Ok msg ->
  exists a,
    written 4 (best_accuracy state) a
    /\ newlines a = 0
    /\ msg = "Get better top1 accuracy: " +:+ a +:+ " saving weights to " +:+ path +:+ nl.
Proof.
  unfold best_message. intros H.
  destruct (format_num 4 (best_accuracy state)) as [a|x] eqn:Ha; [|discriminate H].
  cbn [bind] in H. inversion H; subst. exists a.
  split; [apply format_num_spec; exact Ha|].
  split; [exact (newlines_format_num _ _ _ Ha) | reflexivity].
Qed.


(** What any call, returning or raising, leaves of the files: log.txt keeps
    what it held, and the files that are neither log.txt nor, with is_best,
    best_model.pth are as they were. *)
Lemma save_checkpoint_frame (state : checkpoint) (is_best : bool) (save_path : string)
    (patience : Z) (w w' : world) (r : result bool) :
  save_checkpoint state is_best save_path patience w = (w', r) ->
  (exists appended,
     default "" (files w' !! os_path_join save_path "log.txt")
     = default "" (files w !! os_path_join save_path "log.txt") +:+ appended)
  /\ (forall path,
        path <> os_path_join save_path "log.txt" ->
        (is_best = true -> path <> os_path_join save_path "best_model.pth") ->
        files w' !! path = files w !! path).
Proof.
  pose proof (log_is_not_best save_path) as Hne.
  run_io.
  destruct (open_error w (os_path_join save_path "log.txt")) eqn:Hlog; io_step.
  { intros H; inversion H; subst. split; [exists ""; rewrite append_empty|]; auto. }
  destruct (metrics_line state) as [line|e] eqn:Hline; io_step.
  2: { intros H; inversion H; subst; io_step. split.
       - exists "". simplify_map_eq. rewrite append_empty. reflexivity.
       - intros path Hp _. simplify_map_eq. reflexivity. }
  destruct is_best; io_step.
  - destruct (open_error w (os_path_join save_path "best_model.pth")) eqn:Hbest; io_step.
    { intros H; inversion H; subst; io_step. split.
      - eexists. simplify_map_eq. reflexivity.
      - intros path Hp _. simplify_map_eq. reflexivity. }
    destruct (best_message state (os_path_join save_path "best_model.pth"))
      as [msg|e] eqn:Hmsg; io_step.
    2: { intros H; inversion H; subst; io_step. split.
         - eexists. simplify_map_eq. reflexivity.
         - intros path Hp Hb. specialize (Hb eq_refl). simplify_map_eq. reflexivity. }
    rewrite Hlog. io_step.
    destruct (counter state >=? patience)%Z; io_step; rewrite ?Hlog;
      intros H; inversion H; subst; io_step; (split;
      [ eexists; simplify_map_eq; rewrite ?append_assoc; reflexivity
      | intros path Hp Hb; specialize (Hb eq_refl); simplify_map_eq; reflexivity ]).
  - destruct (counter state >=? patience)%Z; io_step; rewrite ?Hlog;
      intros H; inversion H; subst; io_step; (split;
      [ eexists; simplify_map_eq; rewrite ?append_assoc; reflexivity
      | intros path Hp Hb; simplify_map_eq; reflexivity ]).
Qed.




End PyCheckpointFacts.


(** *** The calls on the recorded torch *)

(** What CPython writes for the checkpoint of epoch 7: the error rate
    0.0078125 lies half way between 0.007812 and 0.007813. *)
Example save_checkpoint_epoch_7_written :
  snd (Py.save_checkpoint Py.epoch_7 true "runs" 3 Py.empty_directory) = Ok true
  /\ Py.files (fst (Py.save_checkpoint Py.epoch_7 true "runs" 3 Py.empty_directory))
       !! "runs/log.txt"
     = Some ("Epoch 7,train_loss 0.500000,train_error 0.007812,"
             +:+ "valid_loss 0.68750,valid_error 0.25000" +:+ nl
             +:+ "Get better top1 accuracy: 0.7500 saving weights to runs/best_model.pth"
             +:+ nl +:+ "early stopped." +:+ nl)
  /\ Py.files (fst (Py.save_checkpoint Py.epoch_7 true "runs" 3 Py.empty_directory))
       !! "runs/best_model.pth"
     = Some "weights-7".
Proof.
  vm_compute. repeat split; reflexivity.
Qed.







(** ** load_model on a torch whose calls can raise *)

Section PyLoadModelFacts.
Import Py.

Context {T : torch}.

(** What load_model does after the state dict is loaded. *)
Lemma load_model_steps (w : world) (env : cuda_env) (model_path : string)
    (model_type : arch) (memory_efficient : bool) (num_classes : Z) (m : net) :
  load_model w env model_path model_type memory_efficient num_classes = Ok m
  <-> exists n0 bytes sd n1,
        MyDenseNet model_type false memory_efficient num_classes = Ok n0
        /\ read_error w (os_path_join model_path "best_model.pth") = None
        /\ files w !! os_path_join model_path "best_model.pth" = Some bytes
        /\ unpickle Cpu bytes = Ok sd
        /\ load_state_dict n0 sd = Ok n1
        /\ (if is_available env
            then exists n2,
                   cuda n1 = Ok n2
                   /\ (if (device_count env >? 1)%Z
                       then exists n3, DataParallel n2 = Ok n3 /\ cuda n3 = Ok m
                       else m = n2)
            else m = n1).
Proof.
  unfold load_model, torch_load. split.
  - intros H.
    destruct (MyDenseNet model_type false memory_efficient num_classes) as [n0|e];
      [|discriminate H]. cbn [bind] in H.
    destruct (read_error w (os_path_join model_path "best_model.pth"));
      [discriminate H|].
    destruct (files w !! os_path_join model_path "best_model.pth") as [bytes|];
      [|discriminate H].
    destruct (unpickle Cpu bytes) as [sd|e] eqn:Hsd; [|discriminate H]. cbn [bind] in H.
    destruct (load_state_dict n0 sd) as [n1|e] eqn:Hn1; [|discriminate H].
    cbn [bind] in H. exists n0, bytes, sd, n1. repeat (split; [reflexivity || assumption|]).
    destruct (is_available env).
    + destruct (cuda n1) as [n2|e] eqn:Hn2; [|discriminate H]. cbn [bind] in H.
      exists n2. split; [reflexivity|].
      destruct (device_count env >? 1)%Z.
      * destruct (DataParallel n2) as [n3|e] eqn:Hn3; [|discriminate H]. cbn [bind] in H.
        exists n3. split; [reflexivity | exact H].
      * inversion H. reflexivity.
    + inversion H. reflexivity.
  - intros (n0 & bytes & sd & n1 & -> & -> & -> & Hsd & Hn1 & Hplace). cbn [bind].
    rewrite Hsd. cbn [bind]. rewrite Hn1. cbn [bind].
    destruct (is_available env).
    + destruct Hplace as (n2 & -> & Hwrap). cbn [bind].
      destruct (device_count env >? 1)%Z.
      * destruct Hwrap as (n3 & -> & Hm). exact Hm.
      * subst m. reflexivity.
    + subst m. reflexivity.
Qed.

(** What torch says of its own calls: a module is constructed on the CPU
    and unwrapped; load_state_dict copies into the parameters where they
    are; .cuda() moves a module to CUDA as it is; DataParallel wraps a
    module where it is. *)
Hypothesis constructed_on_cpu :
  forall a p me c n, MyDenseNet a p me c = Ok n -> device_of n = Cpu /\ wrapped n = false.
Hypothesis loading_keeps_place :
  forall n sd n', load_state_dict n sd = Ok n' ->
    device_of n' = device_of n /\ wrapped n' = wrapped n.
Hypothesis cuda_moves :
  forall n n', cuda n = Ok n' -> device_of n' = Cuda /\ wrapped n' = wrapped n.
Hypothesis wrapping_keeps_place :
  forall n n', DataParallel n = Ok n' -> device_of n' = device_of n /\ wrapped n' = true.

(** C8: a call of load_model returns exactly when the constructor of
    MyDenseNet, called with pretrained=False and the given model_type,
    memory_efficient and num_classes, the reading of the file best_model.pth
    under model_path with map_location CPU, the loading of the state dict
    read into the network and, with CUDA available, the calls that place the
    network all return.  The network returned is then on CUDA exactly when
    CUDA is available, wrapped in DataParallel exactly when moreover more
    than one device is present, and otherwise it is the loaded network, on
    the CPU. *)
Theorem load_model_in_torch (w : world) (env : cuda_env) (model_path : string)
    (model_type : arch) (memory_efficient : bool) (num_classes : Z) :
  (forall m,
     load_model w env model_path model_type memory_efficient num_classes = Ok m
     <-> exists n0 bytes sd n1,
           MyDenseNet model_type false memory_efficient num_classes = Ok n0
           /\ read_error w (os_path_join model_path "best_model.pth") = None
           /\ files w !! os_path_join model_path "best_model.pth" = Some bytes
           /\ unpickle Cpu bytes = Ok sd
           /\ load_state_dict n0 sd = Ok n1
           /\ (if is_available env
               then exists n2,
                      cuda n1 = Ok n2
                      /\ (if (device_count env >? 1)%Z
                          then exists n3, DataParallel n2 = Ok n3 /\ cuda n3 = Ok m
                          else m = n2)
               else m = n1))
  /\ (forall m,
        load_model w env model_path model_type memory_efficient num_classes = Ok m ->
        (device_of m = Cuda <-> is_available env = true)
        /\ (is_available env = false -> device_of m = Cpu /\ wrapped m = false)
        /\ (wrapped m = true <-> is_available env = true /\ (device_count env > 1)%Z)).
Proof.
  split; [intros m; apply load_model_steps|].
  intros m H. apply load_model_steps in H.
  destruct H as (n0 & bytes & sd & n1 & Hn0 & Hread & Hfile & Hsd & Hn1 & Hplace).
  destruct (constructed_on_cpu _ _ _ _ _ Hn0) as [Hd0 Hw0].
  destruct (loading_keeps_place _ _ _ Hn1) as [Hd1 Hw1].
  rewrite Hd0 in Hd1. rewrite Hw0 in Hw1.
  destruct (is_available env).
  - destruct Hplace as (n2 & Hn2 & Hwrap).
    destruct (cuda_moves _ _ Hn2) as [Hd2 Hw2]. rewrite Hw1 in Hw2.
    destruct (Z.gtb_spec (device_count env) 1).
    + destruct Hwrap as (n3 & Hn3 & Hm).
      destruct (wrapping_keeps_place _ _ Hn3) as [Hd3 Hw3].
      destruct (cuda_moves _ _ Hm) as [Hd4 Hw4]. rewrite Hw3 in Hw4.
      rewrite Hd4, Hw4. repeat split; auto; try discriminate; lia.
    + subst m. rewrite Hd2, Hw2. repeat split; auto; try discriminate.
      * intros [_ Hgt]. lia.
  - subst m. rewrite Hd1, Hw1. repeat split; auto; try discriminate.
    intros [Hav _]. discriminate Hav.
Qed.

End PyLoadModelFacts.

(** The recorded torch keeps torch's laws. *)
Lemma load_model_in_torch_witness :
  Py.load_model Py.trained Py.two_gpus "runs" ("densenet121" : @Py.arch Py.recorded_torch)
    true 10
  = Ok {| Py.built := ("densenet121", false, true, 10%Z);
          Py.loaded := Some (Cpu, "weights-7");
          Py.held_on := Cuda;
          Py.parallel := true |}
  /\ @Py.device_of Py.recorded_torch
       {| Py.built := ("densenet121", false, true, 10%Z);
          Py.loaded := Some (Cpu, "weights-7");
          Py.held_on := Cuda;
          Py.parallel := true |} = Cuda.
Proof.
  assert (H : Py.load_model Py.trained Py.two_gpus "runs"
                ("densenet121" : @Py.arch Py.recorded_torch) true 10
              = Ok {| Py.built := ("densenet121", false, true, 10%Z);
                      Py.loaded := Some (Cpu, "weights-7");
                      Py.held_on := Cuda;
                      Py.parallel := true |}) by (vm_compute; reflexivity).
  split; [exact H|].
  refine (proj2 (proj1 (proj2 (load_model_in_torch (T := Py.recorded_torch)
                                 _ _ _ _ _ _ _ _ _ _) _ H)) eq_refl).
  - intros a p me c n E. inversion E. split; reflexivity.
  - intros n sd n' E. cbn in E. destruct (String.eqb (snd sd) "other-net");
      inversion E. split; reflexivity.
  - intros n n' E. inversion E. split; reflexivity.
  - intros n n' E. inversion E. split; reflexivity.
Defined.

(** ** save_checkpoint and load_model together, in a world that can fail *)

Section PyCheckpointMore.
Import Py.

Context {T : torch}.

Ltac io_step := cbn [files open_error read_error events fst snd].

Ltac run_io :=
  unfold save_checkpoint, io_bind, open_append, write, torch_save, logger_info,
    lift, io_ret;
  io_step.

(** A call changes nothing of what can be opened. *)
Lemma save_checkpoint_oracles (state : checkpoint) (is_best : bool) (save_path : string)
    (patience : Z) (w w' : world) (r : result bool) :
  save_checkpoint state is_best save_path patience w = (w', r) ->
  open_error w' = open_error w /\ read_error w' = read_error w.
Proof.
  run_io.
  destruct (open_error w (os_path_join save_path "log.txt")) eqn:Hlog; io_step.
  { intros H; inversion H; subst; auto. }
  destruct (metrics_line state) as [line|e]; io_step.
  2: { intros H; inversion H; subst; auto. }
  destruct is_best; io_step.
  - destruct (open_error w (os_path_join save_path "best_model.pth")); io_step.
    { intros H; inversion H; subst; auto. }
    destruct (best_message state (os_path_join save_path "best_model.pth")); io_step.
    2: { intros H; inversion H; subst; auto. }
    rewrite Hlog. io_step.
    destruct (counter state >=? patience)%Z; io_step; rewrite ?Hlog;
      intros H; inversion H; subst; auto.
  - destruct (counter state >=? patience)%Z; io_step; rewrite ?Hlog;
      intros H; inversion H; subst; auto.
Qed.

(** The files that exist after a call. *)
Lemma save_checkpoint_dom (state : checkpoint) (is_best : bool) (save_path : string)
    (patience : Z) (w w' : world) (r : result bool) :
  save_checkpoint state is_best save_path patience w = (w', r) ->
  dom (files w) ⊆ dom (files w')
  /\ dom (files w') ⊆ dom (files w) ∪ {[os_path_join save_path "log.txt"]}
                      ∪ (if is_best then {[os_path_join save_path "best_model.pth"]}
                         else ∅).
Proof.
  run_io.
  destruct (open_error w (os_path_join save_path "log.txt")) eqn:Hlog; io_step.
  { intros H; inversion H; subst.
    split; intros x; set_unfold; tauto. }
  destruct (metrics_line state) as [line|e]; io_step.
  2: { intros H; inversion H; subst; io_step. rewrite !dom_insert.
       split; intros x; set_unfold; destruct is_best; set_unfold; tauto. }
  destruct is_best; io_step.
  - destruct (open_error w (os_path_join save_path "best_model.pth")); io_step.
    { intros H; inversion H; subst; io_step. rewrite !dom_insert.
      split; intros x; set_unfold; tauto. }
    destruct (best_message state (os_path_join save_path "best_model.pth")); io_step.
    2: { intros H; inversion H; subst; io_step. rewrite !dom_insert.
         split; intros x; set_unfold; tauto. }
    rewrite Hlog. io_step.
    destruct (counter state >=? patience)%Z; io_step; rewrite ?Hlog;
      intros H; inversion H; subst; io_step; rewrite !dom_insert;
      split; intros x; set_unfold; tauto.
  - destruct (counter state >=? patience)%Z; io_step; rewrite ?Hlog;
      intros H; inversion H; subst; io_step; rewrite !dom_insert;
      split; intros x; set_unfold; tauto.
Qed.

(** X13: a call of save_checkpoint, whether it returns or raises, deletes
    no file, leaves every file other than log.txt and best_model.pth under
    save_path with the contents it had, and creates no file other than
    log.txt and, with is_best, best_model.pth. *)
Theorem save_checkpoint_touches_two_files (state : checkpoint) (is_best : bool)
    (save_path : string) (patience : Z) (w w' : world) (r : result bool) :
  save_checkpoint state is_best save_path patience w = (w', r) ->
  (forall path,
     path <> os_path_join save_path "log.txt" ->
     path <> os_path_join save_path "best_model.pth" ->
     files w' !! path = files w !! path)
  /\ dom (files w) ⊆ dom (files w')
  /\ dom (files w') ⊆ dom (files w) ∪ {[os_path_join save_path "log.txt"]}
                      ∪ (if is_best then {[os_path_join save_path "best_model.pth"]}
                         else ∅).
Proof.
  intros H. split.
  - intros path Hlog Hbest.
    apply (proj2 (save_checkpoint_frame _ _ _ _ _ _ _ H)); auto.
  - exact (save_checkpoint_dom _ _ _ _ _ _ _ H).
Qed.

(** X14: when save_path contains no line end, a call of save_checkpoint
    that returns has made log.txt longer by exactly one line, one more when
    is_best is true, and one more when it signals the early stop. *)
Theorem save_checkpoint_adds_lines (state : checkpoint) (is_best : bool)
    (save_path : string) (patience : Z) (w w' : world) (b : bool) :
  newlines save_path = 0 ->
  save_checkpoint state is_best save_path patience w = (w', Ok b) ->
  exists after,
    files w' !! os_path_join save_path "log.txt" = Some after
    /\ newlines after
       = newlines (default "" (files w !! os_path_join save_path "log.txt"))
         + 1 + (if is_best then 1 else 0) + (if b then 1 else 0).
Proof.
  intros Hpath H.
  destruct (save_checkpoint_inv _ _ _ _ _ _ _ H)
    as (line & msg & _ & Hline & _ & Hbest & Hlog & _).
  destruct (metrics_line_spec _ _ Hline) as (? & ? & ? & ? & ? & ? & Hspec).
  assert (Hnl : newlines line = 1) by (destruct Hspec as (_ & _ & _ & _ & _ & _ & -> & E); exact E).
  eexists. split; [exact Hlog|].
  rewrite !newlines_app, Hnl.
  assert (Hmsg : newlines msg = if is_best then 1 else 0).
  { destruct is_best; [|subst msg; reflexivity].
    destruct Hbest as [_ Hm]. apply best_message_spec in Hm as (a & _ & Ha & ->).
    rewrite !newlines_app, Ha, newlines_join, Hpath. reflexivity. }
  rewrite Hmsg. destruct b; simpl; lia.
Qed.

(** X17: what save_checkpoint saves with is_best set, load_model reads: after
    a call that returns, torch.load of best_model.pth under the same path
    unpickles the bytes that torch.save wrote for state["state_dict"], and a
    call of load_model that returns has loaded the state dict unpickled from
    them, whatever the files held before. *)
Theorem saved_weights_are_loaded (state : checkpoint) (save_path : string)
    (patience : Z) (w w' : world) (b : bool) :
  save_checkpoint state true save_path patience w = (w', Ok b) ->
  read_error w (os_path_join save_path "best_model.pth") = None ->
  torch_load w' (os_path_join save_path "best_model.pth") Cpu
  = unpickle Cpu (pickle (state_dict state))
  /\ forall env model_type memory_efficient num_classes m,
       load_model w' env save_path model_type memory_efficient num_classes = Ok m ->
       exists n0 sd n1,
         MyDenseNet model_type false memory_efficient num_classes = Ok n0
         /\ unpickle Cpu (pickle (state_dict state)) = Ok sd
         /\ load_state_dict n0 sd = Ok n1.
Proof.
  intros H Hread.
  destruct (save_checkpoint_inv _ _ _ _ _ _ _ H) as (line & msg & _ & _ & _ & _ & _ & Hbest & _).
  destruct (save_checkpoint_oracles _ _ _ _ _ _ _ H) as [_ Hr].
  split.
  - unfold torch_load. rewrite Hr, Hread, Hbest. reflexivity.
  - intros env model_type memory_efficient num_classes m Hm.
    apply load_model_steps in Hm
      as (n0 & bytes & sd & n1 & Hn0 & _ & Hfile & Hsd & Hn1 & _).
    rewrite Hbest in Hfile. inversion Hfile; subst bytes.
    exists n0, sd, n1. auto.
Qed.

End PyCheckpointMore.

(** ** evaluate: what the logging and the clock have no part in *)

Section PyEvaluateMore.
Import Py.

Context {F : framework}.

Lemma py_evaluate_batch_same times pf it len times' pf' it' len' st1 st2 idx idx'
    (b : batch) st1' st2' :
  evaluate_batch times pf it len st1 idx b = Ok st1' ->
  evaluate_batch times' pf' it' len' st2 idx' b = Ok st2' ->
  losses st1 = losses st2 -> error st1 = error st2 ->
  target_list st1 = target_list st2 -> pred_top1_list st1 = pred_top1_list st2 ->
  losses st1' = losses st2' /\ error st1' = error st2'
  /\ target_list st1' = target_list st2' /\ pred_top1_list st1' = pred_top1_list st2'.
Proof.
  unfold evaluate_batch. intros H1 H2 Hl He Ht Hp.
  apply bind_ok in H1 as (output & Hout & H1). rewrite Hout in H2. cbn [bind] in H2.
  apply bind_ok in H1 as (loss & Hloss & H1). rewrite Hloss in H2. cbn [bind] in H2.
  apply bind_ok in H1 as (pred & Hpred & H1). rewrite Hpred in H2. cbn [bind] in H2.
  apply bind_ok in H1 as (err & Herr & H1). rewrite Herr in H2. cbn [bind] in H2.
  apply bind_ok in H1 as (error' & Herror & H1).
  rewrite <- He, Herror in H2. cbn [bind] in H2.
  apply bind_ok in H1 as (l & Hlq & H1). rewrite Hlq in H2. cbn [bind] in H2.
  apply bind_ok in H1 as (losses' & Hlosses & H1).
  rewrite <- Hl, Hlosses in H2. cbn [bind] in H2.
  apply bind_ok in H1 as (d & _ & H1). apply bind_ok in H2 as (d' & _ & H2).
  apply bind_ok in H1 as (bt & _ & H1). apply bind_ok in H2 as (bt' & _ & H2).
  apply bind_ok in H1 as (r & _ & H1). apply bind_ok in H2 as (r' & _ & H2).
  apply bind_ok in H1 as (lg & _ & H1). apply bind_ok in H2 as (lg' & _ & H2).
  inversion H1; subst st1'. inversion H2; subst st2'.
  cbn [losses error target_list pred_top1_list]. rewrite Ht, Hp. auto.
Qed.

Lemma py_evaluate_loop_same times pf it len times' pf' it' len' (bs : list batch) :
  forall st1 st2 idx idx' st1' st2',
    evaluate_loop times pf it len st1 idx bs = Ok st1' ->
    evaluate_loop times' pf' it' len' st2 idx' bs = Ok st2' ->
    losses st1 = losses st2 -> error st1 = error st2 ->
    target_list st1 = target_list st2 -> pred_top1_list st1 = pred_top1_list st2 ->
    losses st1' = losses st2' /\ error st1' = error st2'
    /\ target_list st1' = target_list st2' /\ pred_top1_list st1' = pred_top1_list st2'.
Proof.
  induction bs as [|b rest IH]; intros st1 st2 idx idx' st1' st2' H1 H2 Hl He Ht Hp;
    cbn [evaluate_loop] in H1, H2.
  - inversion H1; inversion H2; subst. auto.
  - apply bind_ok in H1 as (s1 & Hb1 & H1). apply bind_ok in H2 as (s2 & Hb2 & H2).
    destruct (py_evaluate_batch_same _ _ _ _ _ _ _ _ _ _ _ _ _ _ _ Hb1 Hb2 Hl He Ht Hp)
      as (Hl' & He' & Ht' & Hp').
    exact (IH _ _ _ _ _ _ H1 H2 Hl' He' Ht' Hp').
Qed.

(** X7: two runs of evaluate on the same batches that both return give the
    same loss, the same error and the same two lists, whatever print_freq,
    is_test, the length that the loader reports and the clock are in each;
    only the first result, the time per batch, depends on the run. *)
Theorem evaluate_metrics_ignore_logging (times times' : nat -> float) (l l' : loader)
    (pf pf' : Z) (is_test is_test' : bool) (bt ls e bt' ls' e' : num)
    (lists lists' : list Z * list Z) :
  batches l = batches l' ->
  evaluate times l pf is_test = Ok (bt, ls, e, lists) ->
  evaluate times' l' pf' is_test' = Ok (bt', ls', e', lists') ->
  ls = ls' /\ e = e' /\ lists = lists'.
Proof.
  unfold evaluate, evaluate_run. intros Hb H1 H2.
  apply bind_ok in H1 as (st1 & Hst1 & H1). apply bind_ok in H2 as (st2 & Hst2 & H2).
  inversion H1; subst. inversion H2; subst. rewrite <- Hb in Hst2.
  destruct (py_evaluate_loop_same _ _ _ _ _ _ _ _ _ _ _ _ _ _ _ Hst1 Hst2)
    as (Hl & He & Ht & Hp); try reflexivity.
  rewrite Hl, He, Ht, Hp. auto.
Qed.

End PyEvaluateMore.

(** ** The further properties on the recorded torch and the table framework *)

(** A state dict saved from CUDA comes back on the CPU, a file that is there
    and empty raises EOFError, and a missing one FileNotFoundError. *)
Example load_model_on_recorded_torch :
  Py.load_model Py.trained Py.no_gpu "runs" ("densenet121" : @Py.arch Py.recorded_torch)
    true 10
  = Ok {| Py.built := ("densenet121", false, true, 10%Z);
          Py.loaded := Some (Cpu, "weights-7");
          Py.held_on := Cpu;
          Py.parallel := false |}
  /\ Py.load_model Py.trained Py.one_gpu "runs" ("densenet121" : @Py.arch Py.recorded_torch)
       true 10
     = Ok {| Py.built := ("densenet121", false, true, 10%Z);
             Py.loaded := Some (Cpu, "weights-7");
             Py.held_on := Cuda;
             Py.parallel := false |}
  /\ Py.load_model Py.truncated Py.no_gpu "runs"
       ("densenet121" : @Py.arch Py.recorded_torch) true 10
     = Raise EOFError
  /\ Py.load_model Py.empty_directory Py.two_gpus "runs"
       ("densenet121" : @Py.arch Py.recorded_torch) true 10
     = Raise FileNotFoundError.
Proof.
  vm_compute. repeat split; reflexivity.
Qed.

Lemma evaluate_metrics_ignore_logging_witness :
  Py.evaluate (F := Py.table_framework) Py.seconds Py.rounding_loader 1 false
  = Ok (Py.Float 1, Py.Float (2 / 30), Py.Float ((0 + 15 / 29 * 29) / 30),
        (0%Z :: repeat 0%Z 15 ++ repeat 1%Z 14, 0%Z :: repeat 1%Z 29))
  /\ Py.evaluate (F := Py.table_framework) (fun k => Py.seconds (2 * k))
       Py.rounding_loader 2 true
     = Ok (Py.Float 2, Py.Float (2 / 30), Py.Float ((0 + 15 / 29 * 29) / 30),
           (0%Z :: repeat 0%Z 15 ++ repeat 1%Z 14, 0%Z :: repeat 1%Z 29))
  /\ Py.Float (2 / 30) = Py.Float (2 / 30).
Proof.
  assert (H1 : Py.evaluate (F := Py.table_framework) Py.seconds Py.rounding_loader 1 false
               = Ok (Py.Float 1, Py.Float (2 / 30), Py.Float ((0 + 15 / 29 * 29) / 30),
                     (0%Z :: repeat 0%Z 15 ++ repeat 1%Z 14, 0%Z :: repeat 1%Z 29)))
    by (vm_compute; reflexivity).
  assert (H2 : Py.evaluate (F := Py.table_framework) (fun k => Py.seconds (2 * k))
                 Py.rounding_loader 2 true
               = Ok (Py.Float 2, Py.Float (2 / 30), Py.Float ((0 + 15 / 29 * 29) / 30),
                     (0%Z :: repeat 0%Z 15 ++ repeat 1%Z 14, 0%Z :: repeat 1%Z 29)))
    by (vm_compute; reflexivity).
  split; [exact H1|]. split; [exact H2|].
  exact (proj1 (evaluate_metrics_ignore_logging (F := Py.table_framework)
                  _ _ _ _ _ _ _ _ _ _ _ _ _ _ _ _ eq_refl H1 H2)).
Defined.

Lemma save_checkpoint_touches_two_files_witness :
  snd (Py.save_checkpoint Py.epoch_7 true "runs" 3 Py.protected_weights)
  = Raise (Exception "PermissionError")
  /\ Py.files (fst (Py.save_checkpoint Py.epoch_7 true "runs" 3 Py.protected_weights))
       !! "runs/notes.txt"
     = Py.files Py.protected_weights !! "runs/notes.txt".
Proof.
  split; [vm_compute; reflexivity|].
  apply (proj1 (save_checkpoint_touches_two_files
                  Py.epoch_7 true "runs" 3 Py.protected_weights _ _
                  (surjective_pairing _))).
  - intros E. vm_compute in E. discriminate E.
  - intros E. vm_compute in E. discriminate E.
Defined.

Lemma save_checkpoint_adds_lines_witness :
  snd (Py.save_checkpoint Py.epoch_7 true "runs" 3 Py.empty_directory) = Ok true
  /\ exists after,
       Py.files (fst (Py.save_checkpoint Py.epoch_7 true "runs" 3 Py.empty_directory))
         !! os_path_join "runs" "log.txt" = Some after
       /\ newlines after = 3.
Proof.
  assert (Hr : snd (Py.save_checkpoint Py.epoch_7 true "runs" 3 Py.empty_directory)
               = Ok true) by (vm_compute; reflexivity).
  split; [exact Hr|].
  pose proof (surjective_pairing
                (Py.save_checkpoint Py.epoch_7 true "runs" 3 Py.empty_directory)) as Hp.
  rewrite Hr in Hp.
  exact (save_checkpoint_adds_lines Py.epoch_7 true "runs" 3 Py.empty_directory
           _ true eq_refl Hp).
Defined.

Lemma saved_weights_are_loaded_witness :
  snd (Py.save_checkpoint Py.epoch_7 true "runs" 3 Py.empty_directory) = Ok true
  /\ Py.torch_load (fst (Py.save_checkpoint Py.epoch_7 true "runs" 3 Py.empty_directory))
       (os_path_join "runs" "best_model.pth") Cpu
     = Ok (Cpu, "weights-7").
Proof.
  assert (Hr : snd (Py.save_checkpoint Py.epoch_7 true "runs" 3 Py.empty_directory)
               = Ok true) by (vm_compute; reflexivity).
  split; [exact Hr|].
  pose proof (surjective_pairing
                (Py.save_checkpoint Py.epoch_7 true "runs" 3 Py.empty_directory)) as Hp.
  rewrite Hr in Hp.
  exact (proj1 (saved_weights_are_loaded Py.epoch_7 "runs" 3 Py.empty_directory
                  _ true Hp eq_refl)).
Defined.
